(** * massivelogger viewer: the time-range sampling engine of [viewer/main.py]

    A shallow embedding of [TimelineTrace] (the per-kind index built by
    [read_csv], the range query [get_sampled_time_slice], [get_kinds]) and of
    [TimelineTraceSlice.add_rank_pos], followed by the properties of the
    engine.

    Conventions of the embedding.
    - A pandas DataFrame is the list of its rows, in row order; a positional
      index ([iloc]) is a position in that list.
    - Python and numpy integers are [Z]; times and ranks of the trace are
      integers, kinds are strings.  The lane positions of [add_rank_pos] are exact rationals.
    - A raised exception is the [Raise] case of [result].
    - The process-wide random source is explicit: the list [draw] passed to
      [get_sampled_time_slice] is the value [random.sample] returns in that
      call. *)

From Stdlib Require Import ZArith QArith Lia.
From stdpp Require Import base list sorting gmap strings.

Open Scope Z_scope.

(** ** Exceptions *)

Inductive exn : Type :=
  | ValueError (msg : string)
  | IndexError (msg : string)
  | ZeroDivisionError.

Inductive result (A : Type) : Type :=
  | Ok (a : A)
  | Raise (e : exn).
Arguments Ok {A} a.
Arguments Raise {A} e.

Global Instance result_ret : MRet result := λ A a, Ok a.
Global Instance result_bind : MBind result := λ A B f m,
  match m with
  | Ok a => f a
  | Raise e => Raise e
  end.

(** ** Rows *)

(** One line of the CSV file, columns [rank0, t0, rank1, t1, kind]. *)
Record csv_row : Type := CsvRow {
  csv_rank0 : Z;
  csv_t0 : Z;
  csv_rank1 : Z;
  csv_t1 : Z;
  csv_kind : string
}.

(** A row of the trace frame: the five columns, the derived [duration], and
    [line], the label of the row in the frame that [read_csv] parsed (its
    0-based line number in the file). *)
Record row : Type := Row {
  line : nat;
  rank0 : Z;
  t0 : Z;
  rank1 : Z;
  t1 : Z;
  kind : string;
  duration : Z
}.

Global Instance row_eq_dec : EqDecision row.
Proof. solve_decision. Defined.

(** ** Library operations the engine calls *)

(** [numpy.searchsorted(a, v, 'left')] on an ascending array: the first
    position [i] with [v <= a[i]]. *)
Fixpoint searchsorted_left (a : list Z) (v : Z) : nat :=
  match a with
  | [] => 0%nat
  | x :: a' => if x <? v then S (searchsorted_left a' v) else 0%nat
  end.

(** [numpy.searchsorted(a, v, 'right')] on an ascending array: the first
    position [i] with [v < a[i]]. *)
Fixpoint searchsorted_right (a : list Z) (v : Z) : nat :=
  match a with
  | [] => 0%nat
  | x :: a' => if x <=? v then S (searchsorted_right a' v) else 0%nat
  end.

(** [numpy.cumsum]. *)
Fixpoint cumsum_from (acc : Z) (l : list Z) : list Z :=
  match l with
  | [] => []
  | x :: l' => (acc + x) :: cumsum_from (acc + x) l'
  end.

Definition cumsum (l : list Z) : list Z := cumsum_from 0 l.

(** The slice [a[l:r]] for non-negative [l] and [r]. *)
Definition slice {A} (l r : nat) (a : list A) : list A :=
  take (r - l) (drop l a).

Definition sample_msg : string := "Sample larger than population or is negative".
Definition concat_msg : string := "No objects to concatenate".
Definition iloc_msg : string := "positional indexers are out-of-bounds".

(** [random.sample(population, k)]: the argument check of the library, then
    the value [draw] supplied by the random source. *)
Definition random_sample (population : list Z) (k : Z) (draw : list Z)
    : result (list Z) :=
  if (k <? 0) || (Z.of_nat (length population) <? k)
  then Raise (ValueError sample_msg)
  else Ok draw.

(** What the library guarantees of a value returned by
    [random.sample(range(n), k)]: [k] distinct elements of [range(n)]. *)
Definition sample_of (n k : Z) (draw : list Z) : Prop :=
  Z.of_nat (length draw) = k ∧ NoDup draw ∧ Forall (λ v, 0 ≤ v < n) draw.

(** [df.iloc[i]] for one integer position: negative positions count from the
    end, a position outside [-n, n) raises [IndexError]. *)
Definition iloc1 {A} (df : list A) (i : Z) : result A :=
  let n := Z.of_nat (length df) in
  if (i <? - n) || (n <=? i) then Raise (IndexError iloc_msg)
  else match df !! Z.to_nat (if i <? 0 then i + n else i) with
       | Some r => Ok r
       | None => Raise (IndexError iloc_msg)
       end.

(** [df.iloc[idxs]] for an array of integer positions. *)
Definition iloc {A} (df : list A) (idxs : list Z) : result (list A) :=
  mapM (iloc1 df) idxs.

(** [pandas.concat(frames)]. *)
Definition pandas_concat {A} (frames : list (list A)) : result (list A) :=
  match frames with
  | [] => Raise (ValueError concat_msg)
  | _ => Ok (concat frames)
  end.

(** ** TimelineTrace *)

(** [__data]: kind -> frame of that kind, an ordered dictionary;
    [__t1_index]: kind -> the [t1] column of that frame sorted by value, each
    value with the position it has in the frame. *)
Record TimelineTrace : Type := {
  data : list (string * list row);
  t1_index : list (string * list (nat * Z))
}.

Definition t0_le (a b : row) : Prop := t0 a ≤ t0 b.
Definition snd_le (a b : nat * Z) : Prop := a.2 ≤ b.2.

Global Instance t0_le_dec : RelDecision t0_le.
Proof. intros a b. unfold t0_le. apply _. Defined.
Global Instance snd_le_dec : RelDecision snd_le.
Proof. intros a b. unfold snd_le. apply _. Defined.

(** [df.groupby('kind')], iterated: one frame per distinct kind, the kinds in
    ascending order (the default [sort=True]), the rows of a frame in the
    order they have in [df]. *)
Definition groupby_kind (df : list row) : list (string * list row) :=
  (λ k, (k, filter (λ r, kind r = k) df))
    <$> merge_sort String.le (remove_dups (kind <$> df)).

(** [kind_df['t1'].sort_values()]. *)
Definition sort_t1 (kind_df : list row) : list (nat * Z) :=
  merge_sort snd_le (imap (λ i r, (i, t1 r)) kind_df).

(** The row of the parsed frame for line [i] of the file, with the derived
    column [duration]. *)
Definition to_row (i : nat) (c : csv_row) : row :=
  {| line := i; rank0 := csv_rank0 c; t0 := csv_t0 c;
     rank1 := csv_rank1 c; t1 := csv_t1 c; kind := csv_kind c;
     duration := csv_t1 c - csv_t0 c |}.

(** [read_csv], from the parsed frame on.  pandas leaves the order of rows
    with equal [t0] open; here they keep their file order, and the proofs
    below use only that the result is an ascending permutation. *)
Definition read_csv (input : list csv_row) : TimelineTrace :=
  let df := imap to_row input in
  let df := merge_sort t0_le df in
  let data := groupby_kind df in
  {| data := data;
     t1_index := (λ kd, (kd.1, sort_t1 kd.2)) <$> data |}.

Definition get_kinds (self : TimelineTrace) : list string := (data self).*1.

(** The arrays [index_start], [index_end] and [num_list] of
    [get_sampled_time_slice]. *)
Definition index_start (self : TimelineTrace) (time_range : Z * Z)
    (kinds : gset string) : list Z :=
  (λ kt, if decide (kt.1 ∈ kinds)
         then Z.of_nat (searchsorted_left (kt.2.*2) time_range.1) else 0)
    <$> t1_index self.

Definition index_end (self : TimelineTrace) (time_range : Z * Z)
    (kinds : gset string) : list Z :=
  (λ kd, if decide (kd.1 ∈ kinds)
         then Z.of_nat (searchsorted_right (t0 <$> kd.2) time_range.2) else 0)
    <$> data self.

Definition num_list (self : TimelineTrace) (time_range : Z * Z)
    (kinds : gset string) : list Z :=
  zip_with Z.sub (index_end self time_range kinds)
                 (index_start self time_range kinds).

Definition num_sum_right_of (nl : list Z) : list Z := cumsum nl.

Definition num_total_of (nsr : list Z) : Z := default 0 (last nsr).

Definition num_sum_left_of (nsr : list Z) : list Z :=
  (λ i, match i with
        | O => 0
        | S j => default 0 (nsr !! j)
        end) <$> seq 0 (length nsr).

(** [local_sampled_idxs]. *)
Definition local_sampled_idxs_of (sampled_idxs : list Z)
    (nsl nsr : list Z) : list (list Z) :=
  let si_left := searchsorted_left sampled_idxs <$> nsl in
  let si_right := searchsorted_left sampled_idxs <$> nsr in
  zip_with (λ lr ns, (λ v, v - ns) <$> slice lr.1 lr.2 sampled_idxs)
           (zip si_left si_right) nsl.

(** The positions [idx_start + idxs] handed to [iloc], one array per kind. *)
Definition positions_of (idx_start : list Z) (local : list (list Z))
    : list (list Z) :=
  zip_with (λ s idxs, (λ v, s + v) <$> idxs) idx_start local.

(** [sampled_idxs]: all of [range(num_total)] within the budget, a random
    sample of it beyond; sorted in both cases. *)
Definition sampled_idxs_of (num_total num_samples : Z) (draw : list Z)
    : result (list Z) :=
  sampled_idxs ←
    (if num_samples <? num_total
     then random_sample (seqZ 0 num_total) num_samples draw
     else Ok (seqZ 0 num_total));
  Ok (merge_sort Z.le sampled_idxs).

Definition get_sampled_time_slice (self : TimelineTrace)
    (time_range : Z * Z) (kinds : gset string) (num_samples : Z)
    (draw : list Z) : result (list row * Z) :=
  let idx_start := index_start self time_range kinds in
  let nl := num_list self time_range kinds in
  let nsr := num_sum_right_of nl in
  let num_total := num_total_of nsr in
  let nsl := num_sum_left_of nsr in
  sampled_idxs ← sampled_idxs_of num_total num_samples draw;
  let local := local_sampled_idxs_of sampled_idxs nsl nsr in
  frames ← mapM (λ dp : list row * list Z, iloc dp.1 dp.2)
             (zip (data self).*2 (positions_of idx_start local));
  sub_data ← pandas_concat frames;
  Ok (sub_data, num_total).

(** ** TimelineTraceSlice *)

(** A row of a slice after [add_rank_pos]: the row and the three columns
    [rank0_pos], [height], [rank1_pos]. *)
Record lane_row : Type := LaneRow {
  base : row;
  rank0_pos : Q;
  height : Q;
  rank1_pos : Q
}.

(** [add_rank_pos]: the index of a slice is [0 .. size-1] (the constructor
    resets it), so [self.__df.index] is the position of the row. *)
Definition add_rank_pos (df : list row) (num_conc : Z) : result (list lane_row) :=
  if num_conc =? 0 then Raise ZeroDivisionError
  else Ok (imap (λ i r,
    let r0p := (inject_Z (rank0 r)
                + (inject_Z (Z.of_nat i `mod` num_conc) + (1 # 2))
                  / inject_Z num_conc)%Q in
    {| base := r;
       rank0_pos := r0p;
       height := (1 / inject_Z num_conc)%Q;
       rank1_pos := if rank0 r =? rank1 r then r0p
                    else (inject_Z (rank1 r) + (1 # 2))%Q |}) df).

(** ** Further operations of [TimelineTrace] and [TimelineTraceSlice] *)

(** [Series.min()] and [Series.max()] of an integer column; the NaN of an
    empty column is [None]. *)
Definition column_min (col : list Z) : option Z :=
  match col with
  | [] => None
  | x :: col' => Some (foldr Z.min x col')
  end.

Definition column_max (col : list Z) : option Z :=
  match col with
  | [] => None
  | x :: col' => Some (foldr Z.max x col')
  end.

(** The scalars [__time_min] and [__time_max] that [read_csv] stores beside
    the two dictionaries, as functions of the parsed frame, and
    [get_time_range], which returns the pair. *)
Definition time_min_of (input : list csv_row) : option Z :=
  column_min (csv_t0 <$> input).

Definition time_max_of (input : list csv_row) : option Z :=
  column_max (csv_t1 <$> input).

Definition get_time_range (input : list csv_row) : option Z * option Z :=
  (time_min_of input, time_max_of input).

(** [get_empty_time_slice]: a frame with the columns and no row. *)
Definition get_empty_time_slice : list row := [].

Definition sample_negative_msg : string :=
  "A negative number of rows requested. Please provide positive value.".
Definition sample_larger_msg : string :=
  "Cannot take a larger sample than population when 'replace=False'".

(** [df.sample(n)]: the checks of the library, then the rows at the
    positions [draw] chosen by the random source. *)
Definition df_sample {A} (df : list A) (n : Z) (draw : list Z) : result (list A) :=
  if n <? 0 then Raise (ValueError sample_negative_msg)
  else if Z.of_nat (length df) <? n then Raise (ValueError sample_larger_msg)
  else iloc df draw.

(** [get_sampled_slice], on the frame of the slice. *)
Definition get_sampled_slice {A} (df : list A) (num_samples : Z)
    (draw : list Z) : result (list A) :=
  if num_samples <? Z.of_nat (length df)
  then df_sample df num_samples draw
  else Ok df.

(** [size]. *)
Definition size {A} (df : list A) : Z := Z.of_nat (length df).

(** ** TimelineTraceViewer *)

Definition list_index_msg : string := "list index out of range".

(** [l[i]] on a Python list. *)
Definition py_index {A} (l : list A) (i : Z) : result A :=
  let n := Z.of_nat (length l) in
  if (i <? - n) || (n <=? i) then Raise (IndexError list_index_msg)
  else match l !! Z.to_nat (if i <? 0 then i + n else i) with
       | Some x => Ok x
       | None => Raise (IndexError list_index_msg)
       end.

(** [big_palette].  [int(i * 256.0 / size)] is the integer quotient
    [i * 256 / size]: the float product is exact and the rounded float
    quotient truncates to the integer quotient for every size below 2^44. *)
Definition big_palette {C} (size : Z) (palette_func : Z → list C)
    : result (list C) :=
  if size <? 256 then Ok (palette_func size)
  else
    let p := palette_func 256 in
    mapM (λ i, py_index p (i * 256 / size)) (seqZ 0 size).

(** The dictionary [__refreshed]. *)
Record refreshed : Type := Refreshed {
  refreshed_main : bool;
  refreshed_sub : bool
}.

(** The dictionary [__slider_values].  The type [rate] of the float
    [label_rate] is a parameter of the viewer. *)
Record slider_values (rate : Type) : Type := SliderValues {
  num_main_bar_samples : Z;
  label_rate : rate;
  num_rt_bar_samples : Z;
  num_conc : Z
}.
Arguments SliderValues {rate}.
Arguments num_main_bar_samples {rate}.
Arguments label_rate {rate}.
Arguments num_rt_bar_samples {rate}.
Arguments num_conc {rate}.

(** The two data sources of a main tab. *)
Record tab_data : Type := TabData {
  bar_src : list lane_row;
  label_src : list lane_row
}.

(** The text of the sample information: the number of actual events and
    either "accurate" or the two operands [n_limit], [n_actual] of the
    percentage shown. *)
Inductive sample_note : Type :=
  | Sampled (n_limit n_actual : Z)
  | Accurate.

Record sample_info : Type := SampleInfo {
  info_actual : Z;
  info_note : sample_note
}.

(** What the viewer shows: the sources of the two main tabs (WebGL, SVG),
    the source of the range-tool plot and the sample information. *)
Record display : Type := Display {
  tab0 : tab_data;
  tab1 : tab_data;
  rt_bar_src : list lane_row;
  sample_info_div : sample_info
}.

Record viewer (rate : Type) : Type := Viewer {
  v_trace : TimelineTrace;
  v_kinds : list string;
  v_visible_kinds : gset string;
  v_refreshed : refreshed;
  v_slider_values : slider_values rate;
  v_active_main_tab : Z;
  v_main_time_range : Z * Z;
  v_rt_time_range : Z * Z;
  v_num_main_actual_events : Z;
  v_display : display
}.
Arguments Viewer {rate}.
Arguments v_trace {rate}.
Arguments v_kinds {rate}.
Arguments v_visible_kinds {rate}.
Arguments v_refreshed {rate}.
Arguments v_slider_values {rate}.
Arguments v_active_main_tab {rate}.
Arguments v_main_time_range {rate}.
Arguments v_rt_time_range {rate}.
Arguments v_num_main_actual_events {rate}.
Arguments v_display {rate}.

(** The values the random source supplies during one timer tick: to the
    query of the main plot, to the label sample and to the query of the
    range-tool plot. *)
Record draws : Type := Draws {
  dr_main : list Z;
  dr_label : list Z;
  dr_rt : list Z
}.

Section viewer.
Context {rate : Type}.
(** [math.ceil(size * label_rate)]. *)
Context (label_count : Z → rate → Z).
Implicit Types (v : viewer rate).

Definition set_refreshed (f : refreshed) v : viewer rate :=
  Viewer (v_trace v) (v_kinds v) (v_visible_kinds v) f (v_slider_values v)
    (v_active_main_tab v) (v_main_time_range v) (v_rt_time_range v)
    (v_num_main_actual_events v) (v_display v).

Definition set_slider_values (sv : slider_values rate) v : viewer rate :=
  Viewer (v_trace v) (v_kinds v) (v_visible_kinds v) (v_refreshed v) sv
    (v_active_main_tab v) (v_main_time_range v) (v_rt_time_range v)
    (v_num_main_actual_events v) (v_display v).

Definition set_visible_kinds (ks : gset string) v : viewer rate :=
  Viewer (v_trace v) (v_kinds v) ks (v_refreshed v) (v_slider_values v)
    (v_active_main_tab v) (v_main_time_range v) (v_rt_time_range v)
    (v_num_main_actual_events v) (v_display v).

Definition set_active_main_tab (tab : Z) v : viewer rate :=
  Viewer (v_trace v) (v_kinds v) (v_visible_kinds v) (v_refreshed v)
    (v_slider_values v) tab (v_main_time_range v) (v_rt_time_range v)
    (v_num_main_actual_events v) (v_display v).


Definition set_num_main_actual_events (n : Z) v : viewer rate :=
  Viewer (v_trace v) (v_kinds v) (v_visible_kinds v) (v_refreshed v)
    (v_slider_values v) (v_active_main_tab v) (v_main_time_range v)
    (v_rt_time_range v) n (v_display v).

Definition set_display (d : display) v : viewer rate :=
  Viewer (v_trace v) (v_kinds v) (v_visible_kinds v) (v_refreshed v)
    (v_slider_values v) (v_active_main_tab v) (v_main_time_range v)
    (v_rt_time_range v) (v_num_main_actual_events v) d.

(** [__request_refresh_main] and [__request_refresh_all]. *)
Definition request_refresh_main v : viewer rate :=
  set_refreshed (Refreshed false (refreshed_sub (v_refreshed v))) v.

Definition request_refresh_all v : viewer rate :=
  set_refreshed (Refreshed false false) v.

(** [TimelineTraceViewer.__get_sampled_time_slice]: the query of the trace
    with the visible kinds, then the lane positions. *)
Definition viewer_get_sampled_time_slice v (time_range : Z * Z)
    (num_samples : Z) (draw : list Z) : result (list lane_row * Z) :=
  st ← get_sampled_time_slice (v_trace v) time_range (v_visible_kinds v)
         num_samples draw;
  sl ← add_rank_pos st.1 (num_conc (v_slider_values v));
  Ok (sl, st.2).

(** [__get_empty_data]. *)
Definition get_empty_data v : result (list lane_row * Z) :=
  sl ← add_rank_pos get_empty_time_slice (num_conc (v_slider_values v));
  Ok (sl, 0).

(** [__get_main_data]: the new state of the viewer (the number of actual
    events is stored before the labels are sampled) and the bar and label
    frames, or the exception raised. *)
Definition get_main_data v (tab_num : Z) (dr : draws)
    : viewer rate * result tab_data :=
  let is_active := tab_num =? v_active_main_tab v in
  match (if is_active
         then viewer_get_sampled_time_slice v (v_main_time_range v)
                (num_main_bar_samples (v_slider_values v)) (dr_main dr)
         else get_empty_data v) with
  | Raise e => (v, Raise e)
  | Ok (bar_sl, num_total) =>
      let v := if is_active then set_num_main_actual_events num_total v else v in
      let num_label_samples :=
        label_count (size bar_sl) (label_rate (v_slider_values v)) in
      match get_sampled_slice bar_sl num_label_samples (dr_label dr) with
      | Raise e => (v, Raise e)
      | Ok label_sl => (v, Ok (TabData bar_sl label_sl))
      end
  end.

(** [__get_rangetool_data]: the argument is not read, the query is made over
    [__rt_time_range]. *)
Definition get_rangetool_data v (time_range : Z * Z) (dr : draws)
    : result (list lane_row) :=
  st ← viewer_get_sampled_time_slice v (v_rt_time_range v)
         (num_rt_bar_samples (v_slider_values v)) (dr_rt dr);
  Ok st.1.

(** [__get_sample_info]. *)
Definition get_sample_info v : result sample_info :=
  let n_actual := v_num_main_actual_events v in
  let n_limit := num_main_bar_samples (v_slider_values v) in
  if n_limit <? n_actual
  then (if n_actual =? 0 then Raise ZeroDivisionError
        else Ok (SampleInfo n_actual (Sampled n_limit n_actual)))
  else Ok (SampleInfo n_actual Accurate).

(** [__update_main_data]: tab 0, then tab 1, then the sample information;
    an exception leaves what was assigned before it. *)
Definition update_main_data v (dr : draws) : viewer rate * option exn :=
  match get_main_data v 0 dr with
  | (v, Raise e) => (v, Some e)
  | (v, Ok d0) =>
      let v := set_display (Display d0 (tab1 (v_display v))
                 (rt_bar_src (v_display v)) (sample_info_div (v_display v))) v in
      match get_main_data v 1 dr with
      | (v, Raise e) => (v, Some e)
      | (v, Ok d1) =>
          let v := set_display (Display (tab0 (v_display v)) d1
                     (rt_bar_src (v_display v)) (sample_info_div (v_display v))) v in
          match get_sample_info v with
          | Raise e => (v, Some e)
          | Ok info =>
              (set_display (Display (tab0 (v_display v)) (tab1 (v_display v))
                              (rt_bar_src (v_display v)) info) v, None)
          end
      end
  end.

(** [__update_rangetool_data]. *)
Definition update_rangetool_data v (dr : draws) : viewer rate * option exn :=
  match get_rangetool_data v (v_rt_time_range v) dr with
  | Raise e => (v, Some e)
  | Ok sl =>
      (set_display (Display (tab0 (v_display v)) (tab1 (v_display v)) sl
                      (sample_info_div (v_display v))) v, None)
  end.

(** [__on_timer]: each plot whose flag is down is updated and its flag
    raised; an exception is raised again, before the flag is. *)
Definition on_timer v (dr : draws) : viewer rate * option exn :=
  let after_main :=
    if refreshed_main (v_refreshed v) then (v, None)
    else match update_main_data v dr with
         | (v, Some e) => (v, Some e)
         | (v, None) =>
             (set_refreshed (Refreshed true (refreshed_sub (v_refreshed v))) v,
              None)
         end in
  match after_main with
  | (v, Some e) => (v, Some e)
  | (v, None) =>
      if refreshed_sub (v_refreshed v) then (v, None)
      else match update_rangetool_data v dr with
           | (v, Some e) => (v, Some e)
           | (v, None) =>
               (set_refreshed (Refreshed (refreshed_main (v_refreshed v)) true) v,
                None)
           end
  end.


(** [__on_change_main_tab]. *)
Definition on_change_main_tab v (new : Z) : viewer rate :=
  request_refresh_main (set_active_main_tab new v).

(** [__on_change_slider], for the three integer sliders and for the rate. *)
Inductive slider_change : Type :=
  | Set_num_main_bar_samples (new : Z)
  | Set_label_rate (new : rate)
  | Set_num_rt_bar_samples (new : Z)
  | Set_num_conc (new : Z).

Definition on_change_slider v (c : slider_change) : viewer rate :=
  let sv := v_slider_values v in
  let sv' :=
    match c with
    | Set_num_main_bar_samples new =>
        SliderValues new (label_rate sv) (num_rt_bar_samples sv) (num_conc sv)
    | Set_label_rate new =>
        SliderValues (num_main_bar_samples sv) new (num_rt_bar_samples sv)
          (num_conc sv)
    | Set_num_rt_bar_samples new =>
        SliderValues (num_main_bar_samples sv) (label_rate sv) new (num_conc sv)
    | Set_num_conc new =>
        SliderValues (num_main_bar_samples sv) (label_rate sv)
          (num_rt_bar_samples sv) new
    end in
  request_refresh_all (set_slider_values sv' v).

(** [__on_click_kind_checkboxes]: the set is built before it is assigned,
    so an index out of range leaves the viewer as it was. *)
Definition on_click_kind_checkboxes v (active_list : list Z)
    : viewer rate * option exn :=
  match mapM (py_index (v_kinds v)) active_list with
  | Raise e => (v, Some e)
  | Ok ks => (request_refresh_all (set_visible_kinds (list_to_set ks) v), None)
  end.
End viewer.


(** Two states of the viewer agree on everything a query reads but the
    flags: trace, kinds, visible kinds, slider values, active tab and time
    ranges. *)
Definition same_settings {rate} (v v' : viewer rate) : Prop :=
  v_trace v' = v_trace v
  ∧ v_kinds v' = v_kinds v
  ∧ v_visible_kinds v' = v_visible_kinds v
  ∧ v_slider_values v' = v_slider_values v
  ∧ v_active_main_tab v' = v_active_main_tab v
  ∧ v_main_time_range v' = v_main_time_range v
  ∧ v_rt_time_range v' = v_rt_time_range v.

(** Between two states only the main plot may differ: settings, flags and
    the source of the range-tool plot agree. *)
Definition only_main_differs {rate} (v v' : viewer rate) : Prop :=
  same_settings v v'
  ∧ v_refreshed v' = v_refreshed v
  ∧ rt_bar_src (v_display v') = rt_bar_src (v_display v).

(** ** Vocabulary of the properties *)

Global Instance row_inhabited : Inhabited row :=
  populate (Row 0 0 0 0 0 "" 0).

(** The end-time index holds, kind by kind, the sorted [t1] column of the
    frame of that kind. *)
Definition indexed (self : TimelineTrace) : Prop :=
  t1_index self = (λ kd, (kd.1, sort_t1 kd.2)) <$> data self.

(** [num_total] as a function of the query. *)
Definition num_total (self : TimelineTrace) (time_range : Z * Z)
    (kinds : gset string) : Z :=
  num_total_of (num_sum_right_of (num_list self time_range kinds)).

(** The bounds [(lo_k, hi_k)] of one kind: the entries of [index_start] and
    [index_end] for the frame [kd.2] of kind [kd.1]. *)
Definition bounds_of (time_range : Z * Z) (kinds : gset string)
    (kd : string * list row) : Z * Z :=
  if decide (kd.1 ∈ kinds)
  then (Z.of_nat (searchsorted_left ((sort_t1 kd.2).*2) time_range.1),
        Z.of_nat (searchsorted_right (t0 <$> kd.2) time_range.2))
  else (0, 0).

(** [num_sum_left] as a recursion on [num_list]: the running offset before
    each kind. *)
Fixpoint lefts_from (o : Z) (cs : list Z) : list Z :=
  match cs with
  | [] => []
  | c :: cs' => o :: lefts_from (o + c) cs'
  end.

(** The positions handed to [iloc] for a kind with bounds [b] whose span of
    the virtual index space starts at offset [o], when the sorted sampled
    indices are [s]. *)
Definition picks (s : list Z) (o : Z) (b : Z * Z) : list Z :=
  (λ v, b.1 + (v - o)) <$> filter (λ v, o ≤ v < o + (b.2 - b.1)) s.

Fixpoint positions_from (s : list Z) (o : Z) (bs : list (Z * Z))
    : list (list Z) :=
  match bs with
  | [] => []
  | b :: bs' => picks s o b :: positions_from s (o + (b.2 - b.1)) bs'
  end.

(** The rows of [df] at in-range positions [ps]. *)
Definition rows_at (df : list row) (ps : list Z) : list row :=
  (λ p, df !!! Z.to_nat p) <$> ps.

(** The per-kind frames of the result, kinds [d] laid out from offset [o]. *)
Fixpoint frames_from (bnd : string * list row → Z * Z) (s : list Z) (o : Z)
    (d : list (string * list row)) : list (list row) :=
  match d with
  | [] => []
  | kd :: d' =>
      rows_at kd.2 (picks s o (bnd kd))
      :: frames_from bnd s (o + ((bnd kd).2 - (bnd kd).1)) d'
  end.

(** The bounds of a kind lie inside its frame. *)
Definition in_frame (bnd : string * list row → Z * Z)
    (kd : string * list row) : Prop :=
  0 ≤ (bnd kd).1 ∧ (bnd kd).2 ≤ Z.of_nat (length kd.2).

(** The random source honours the contract of [random.sample] whenever the
    arguments pass the check of the library. *)
Definition random_source_ok (num_total num_samples : Z) (draw : list Z) : Prop :=
  0 ≤ num_samples < num_total → sample_of num_total num_samples draw.

(** The count [hi_k - lo_k] of a kind. *)
Definition count_of (bnd : string * list row → Z * Z)
    (kd : string * list row) : Z :=
  (bnd kd).2 - (bnd kd).1.

Definition sum_list_Z (l : list Z) : Z := foldr Z.add 0 l.

(** The matching population in the words of the specification: for each
    visible kind, in kind order, the rows at local positions [lo_k, hi_k) of
    its frame, in ascending position. *)
Definition full_ranges (self : TimelineTrace) (time_range : Z * Z)
    (kinds : gset string) : list row :=
  concat ((λ kd, let b := bounds_of time_range kinds kd in
                 slice (Z.to_nat b.1) (Z.to_nat b.2) kd.2) <$> data self).





(** ** Example traces *)

(** A long event that contains a later, short one of the same kind. *)
Definition ex_nested : list csv_row :=
  [ CsvRow 0 0 0 100 "b"; CsvRow 1 1 1 2 "b"; CsvRow 0 5 1 7 "a" ].

(** Events of one kind whose end times ascend with their start times. *)
Definition ex_chain : list csv_row :=
  [ CsvRow 0 0 0 10 "a"; CsvRow 1 5 1 20 "a"; CsvRow 2 30 2 40 "a" ].

(** A label count for rates given in percent, and a viewer of [ex_chain]
    with both flags up. *)
Definition ex_label_count (size : Z) (percent : Z) : Z :=
  (size * percent + 99) / 100.

Definition ex_viewer : viewer Z :=
  Viewer (read_csv ex_chain) ["a"] {["a"]} (Refreshed true true)
    (SliderValues 10 50 10 1) 0 (0, 50) (0, 50) 3
    (Display (TabData [] []) (TabData [] []) [] (SampleInfo 3 Accurate)).

(** * Properties *)

(** Reduce a bind whose first computation has returned. *)
Ltac bind_ok := unfold mbind, result_bind; cbv beta iota.

(** ** Binary-search results on ascending arrays *)

Section searchsorted.
Implicit Types (a s : list Z) (v x : Z).

Lemma searchsorted_left_le a v : (searchsorted_left a v ≤ length a)%nat.
Proof. induction a as [|x a IH]; simpl; [lia|]. destruct (x <? v); simpl; lia. Qed.

Lemma searchsorted_right_le a v : (searchsorted_right a v ≤ length a)%nat.
Proof. induction a as [|x a IH]; simpl; [lia|]. destruct (x <=? v); simpl; lia. Qed.


Lemma Sorted_Z_le_head x a y : Sorted Z.le (x :: a) → y ∈ a → x ≤ y.
Proof.
  intros Hs%Sorted_StronglySorted; [|apply _].
  apply StronglySorted_inv in Hs as [_ Hall].
  rewrite Forall_forall in Hall. apply Hall.
Qed.


Lemma searchsorted_left_0 a v : Forall (λ x, v ≤ x) a → searchsorted_left a v = 0%nat.
Proof. destruct 1 as [|x a Hx _]; simpl; [done|]. destruct (Z.ltb_spec x v); [lia|done]. Qed.

Lemma filter_range_nil s lo hi :
  Forall (λ x, hi ≤ x) s → filter (λ v, lo ≤ v < hi) s = [].
Proof.
  induction 1 as [|x s Hx _ IH]; [done|].
  rewrite filter_cons_False; [done|lia].
Qed.

(** The slice between two left insertion points of an ascending array holds
    the elements of the half-open interval, and nothing when the interval
    is empty or inverted. *)
Lemma slice_searchsorted s lo hi :
  Sorted Z.le s →
  slice (searchsorted_left s lo) (searchsorted_left s hi) s
  = filter (λ v, lo ≤ v < hi) s.
Proof.
  intros Hs. induction Hs as [|x s Hs IH Hd]; [done|].
  assert (Hall : Forall (λ y, x ≤ y) s).
  { apply Forall_forall. intros y Hy. apply (Sorted_Z_le_head x s); [by constructor|done]. }
  simpl. destruct (Z.ltb_spec x lo), (Z.ltb_spec x hi).
  - rewrite filter_cons_False by lia. exact IH.
  - rewrite filter_cons_False by lia. unfold slice. simpl.
    symmetry. apply filter_range_nil. eapply Forall_impl; [exact Hall|]. simpl; lia.
  - rewrite filter_cons_True by lia. rewrite <- IH.
    rewrite (searchsorted_left_0 s lo).
    2:{ eapply Forall_impl; [exact Hall|]. simpl; lia. }
    unfold slice. simpl. by rewrite !Nat.sub_0_r.
  - rewrite filter_cons_False by lia. unfold slice. simpl.
    symmetry. apply filter_range_nil. eapply Forall_impl; [exact Hall|]. simpl; lia.
Qed.
End searchsorted.

(** ** Prefix sums *)

Lemma num_sum_left_of_take nsr :
  num_sum_left_of nsr = take (length nsr) (0 :: nsr).
Proof.
  unfold num_sum_left_of. apply list_eq. intros i.
  rewrite list_lookup_fmap.
  destruct (decide (i < length nsr)%nat) as [Hi|Hi].
  - rewrite lookup_seq_lt by done. rewrite lookup_take_lt by done. simpl.
    destruct i as [|j]; [done|]. simpl.
    destruct (lookup_lt_is_Some_2 nsr j) as [x Hx]; [lia|]. by rewrite Hx.
  - rewrite lookup_seq_ge by lia. rewrite lookup_take_ge by lia. done.
Qed.

Lemma length_cumsum_from o cs : length (cumsum_from o cs) = length cs.
Proof. revert o. induction cs as [|c cs IH]; intros o; simpl; [done|]. by rewrite IH. Qed.

Lemma take_cumsum_from o cs :
  take (length (cumsum_from o cs)) (o :: cumsum_from o cs) = lefts_from o cs.
Proof.
  revert o. induction cs as [|c cs IH]; intros o; simpl; [done|].
  f_equal. apply IH.
Qed.

Lemma num_sum_left_of_cumsum cs :
  num_sum_left_of (cumsum cs) = lefts_from 0 cs.
Proof. rewrite num_sum_left_of_take. apply take_cumsum_from. Qed.

Lemma last_cumsum_from_cons o c cs :
  last (cumsum_from o (c :: cs)) = Some (o + sum_list_Z (c :: cs)).
Proof.
  revert o c. induction cs as [|c' cs IH]; intros o c.
  - simpl. f_equal. lia.
  - change (cumsum_from o (c :: c' :: cs))
      with ((o + c) :: cumsum_from (o + c) (c' :: cs)).
    rewrite last_cons, IH. simpl. f_equal. lia.
Qed.

Lemma last_cumsum_from o cs :
  default o (last (cumsum_from o cs)) = o + sum_list_Z cs.
Proof.
  destruct cs as [|c cs]; [simpl; lia|]. by rewrite last_cumsum_from_cons.
Qed.

Lemma num_total_of_cumsum cs : num_total_of (cumsum cs) = sum_list_Z cs.
Proof. unfold num_total_of, cumsum. by rewrite last_cumsum_from. Qed.

(** ** The positions handed to [iloc] *)

Lemma positions_of_local s o (bs : list (Z * Z)) :
  Sorted Z.le s →
  positions_of bs.*1
    (local_sampled_idxs_of s (lefts_from o ((λ b, b.2 - b.1) <$> bs))
                             (cumsum_from o ((λ b, b.2 - b.1) <$> bs)))
  = positions_from s o bs.
Proof.
  intros Hs. revert o. induction bs as [|b bs IH]; intros o; [done|].
  unfold positions_of, local_sampled_idxs_of in *. simpl.
  rewrite slice_searchsorted by done. f_equal.
  - unfold picks. rewrite <- list_fmap_compose. apply list_fmap_ext.
    intros _ v _. simpl. lia.
  - apply IH.
Qed.

(** ** Positional indexing *)

Lemma iloc1_in_range {A} `{Inhabited A} (df : list A) p :
  0 ≤ p < Z.of_nat (length df) → iloc1 df p = Ok (df !!! Z.to_nat p).
Proof.
  intros Hp. unfold iloc1.
  destruct (Z.ltb_spec p (- Z.of_nat (length df))); [lia|].
  destruct (Z.leb_spec (Z.of_nat (length df)) p); [lia|]. simpl.
  destruct (Z.ltb_spec p 0); [lia|].
  destruct (lookup_lt_is_Some_2 df (Z.to_nat p)) as [r Hr]; [lia|].
  rewrite Hr. f_equal. symmetry. by apply list_lookup_total_correct.
Qed.

Lemma iloc_in_range (df : list row) ps :
  Forall (λ p, 0 ≤ p < Z.of_nat (length df)) ps → iloc df ps = Ok (rows_at df ps).
Proof.
  unfold iloc, rows_at. induction 1 as [|p ps Hp _ IH]; [done|].
  simpl. rewrite iloc1_in_range by done. simpl.
  unfold fmap in IH. rewrite IH. done.
Qed.

Lemma picks_range s o b : Forall (λ p, b.1 ≤ p < b.2) (picks s o b).
Proof.
  unfold picks. apply Forall_fmap, Forall_forall. intros v Hv.
  apply list_elem_of_filter in Hv as [Hv _]. simpl. lia.
Qed.

Lemma bounds_of_range time_range kinds kd :
  0 ≤ (bounds_of time_range kinds kd).1
  ∧ (bounds_of time_range kinds kd).2 ≤ Z.of_nat (length kd.2).
Proof.
  unfold bounds_of. destruct (decide (kd.1 ∈ kinds)); simpl; [|lia].
  pose proof (searchsorted_right_le (t0 <$> kd.2) time_range.2) as Hle.
  rewrite length_fmap in Hle. lia.
Qed.

Lemma mapM_iloc_frames bnd s o (d : list (string * list row)) :
  Forall (λ kd, 0 ≤ (bnd kd).1 ∧ (bnd kd).2 ≤ Z.of_nat (length kd.2)) d →
  mapM (λ dp : list row * list Z, iloc dp.1 dp.2)
       (zip d.*2 (positions_from s o (bnd <$> d)))
  = Ok (frames_from bnd s o d).
Proof.
  intros Hall. revert o. induction Hall as [|kd d [Hlo Hhi] _ IH]; intros o; [done|].
  simpl. rewrite iloc_in_range.
  2:{ eapply Forall_impl; [apply picks_range|]. simpl. lia. }
  simpl. rewrite IH. done.
Qed.

(** ** The query, kind by kind *)

Section query.
Context (self : TimelineTrace) (Hidx : indexed self).
Context (time_range : Z * Z) (kinds : gset string).

Lemma index_start_bounds :
  index_start self time_range kinds
  = (bounds_of time_range kinds <$> data self).*1.
Proof.
  unfold index_start. rewrite Hidx, <- !list_fmap_compose.
  apply list_fmap_ext. intros _ kd _. unfold bounds_of. simpl.
  by destruct (decide (kd.1 ∈ kinds)).
Qed.

Lemma index_end_bounds :
  index_end self time_range kinds
  = (bounds_of time_range kinds <$> data self).*2.
Proof.
  unfold index_end. rewrite <- !list_fmap_compose.
  apply list_fmap_ext. intros _ kd _. unfold bounds_of. simpl.
  by destruct (decide (kd.1 ∈ kinds)).
Qed.

Lemma num_list_bounds :
  num_list self time_range kinds
  = (λ b, b.2 - b.1) <$> (bounds_of time_range kinds <$> data self).
Proof.
  unfold num_list. rewrite index_start_bounds, index_end_bounds.
  generalize (bounds_of time_range kinds <$> data self). intros bs.
  induction bs as [|b bs IH]; [done|]. csimpl. f_equal. exact IH.
Qed.

Lemma num_total_sum :
  num_total self time_range kinds = sum_list_Z (num_list self time_range kinds).
Proof. apply num_total_of_cumsum. Qed.

Lemma frames_from_nil bnd s o d : frames_from bnd s o d = [] → d = [].
Proof. by destruct d. Qed.

(** The query in closed form: the sampling step, then the rows picked
    from each frame. *)
Lemma get_sampled_time_slice_eq num_samples draw :
  get_sampled_time_slice self time_range kinds num_samples draw
  = s ← sampled_idxs_of (num_total self time_range kinds) num_samples draw;
    match data self with
    | [] => Raise (ValueError concat_msg)
    | _ => Ok (concat (frames_from (bounds_of time_range kinds) s 0 (data self)),
               num_total self time_range kinds)
    end.
Proof.
  unfold get_sampled_time_slice. fold (num_total self time_range kinds).
  destruct (sampled_idxs_of _ _ _) as [s|e] eqn:Hs; [|done]. simpl.
  assert (Sorted Z.le s) as Hsorted.
  { unfold sampled_idxs_of in Hs.
    destruct (if num_samples <? _ then _ else _) as [s0|]; simpl in Hs; [|done].
    injection Hs as <-. apply Sorted_merge_sort. apply _. }
  unfold num_sum_right_of. rewrite num_sum_left_of_cumsum.
  rewrite index_start_bounds, num_list_bounds.
  unfold cumsum. rewrite positions_of_local by done.
  rewrite mapM_iloc_frames.
  2:{ apply Forall_forall. intros kd _. apply bounds_of_range. }
  simpl. destruct (data self) as [|kd d]; done.
Qed.
End query.

(** ** The index built by [read_csv] *)

Global Instance t0_le_total : Total t0_le.
Proof. intros a b. unfold t0_le. lia. Qed.
Global Instance t0_le_trans : Transitive t0_le.
Proof. intros a b c. unfold t0_le. lia. Qed.
Global Instance snd_le_total : Total snd_le.
Proof. intros a b. unfold snd_le. lia. Qed.

Lemma StronglySorted_filter {A} (R : relation A) (P : A → Prop)
    `{∀ x, Decision (P x)} l :
  StronglySorted R l → StronglySorted R (filter P l).
Proof.
  induction 1 as [|x l Hs IH Hall]; [constructor|].
  rewrite filter_cons. case_decide; [|done].
  constructor; [done|]. apply Forall_forall. intros y [_ Hy]%list_elem_of_filter.
  by eapply Forall_forall in Hall.
Qed.

Lemma fmap_imap_const {A B C} (g : B → C) (f : nat → A → B) (h : A → C) l :
  (∀ i x, g (f i x) = h x) → g <$> imap f l = h <$> l.
Proof.
  intros Hgf. rewrite fmap_imap, <- imap_const. apply imap_ext.
  intros i x _. apply Hgf.
Qed.

Lemma sort_t1_sorted df : Sorted Z.le (sort_t1 df).*2.
Proof.
  unfold sort_t1. apply (Sorted_fmap _ snd_le Z.le); [done|].
  apply Sorted_merge_sort. apply _.
Qed.

Lemma sort_t1_values df : (sort_t1 df).*2 ≡ₚ t1 <$> df.
Proof.
  unfold sort_t1. rewrite merge_sort_Permutation.
  by rewrite (fmap_imap_const _ _ t1).
Qed.

Lemma read_csv_indexed input : indexed (read_csv input).
Proof. reflexivity. Qed.

Lemma groupby_kind_keys df :
  (groupby_kind df).*1 = merge_sort String.le (remove_dups (kind <$> df)).
Proof.
  unfold groupby_kind. rewrite <- list_fmap_compose.
  rewrite <- (list_fmap_id (merge_sort _ _)) at 2. by apply list_fmap_ext.
Qed.

Lemma groupby_kind_frame df kd :
  kd ∈ groupby_kind df → kd.2 = filter (λ r, kind r = kd.1) df.
Proof.
  unfold groupby_kind. intros (k & -> & _)%list_elem_of_fmap. done.
Qed.

Lemma read_csv_frame input kd :
  kd ∈ data (read_csv input) →
  kd.2 = filter (λ r, kind r = kd.1) (merge_sort t0_le (imap to_row input)).
Proof. apply groupby_kind_frame. Qed.

(** Every frame is in ascending start-time order. *)
Lemma read_csv_t0_sorted input kd :
  kd ∈ data (read_csv input) → Sorted Z.le (t0 <$> kd.2).
Proof.
  intros Hkd. rewrite (read_csv_frame input kd Hkd).
  apply (Sorted_fmap _ t0_le Z.le); [done|].
  apply StronglySorted_Sorted, StronglySorted_filter.
  apply StronglySorted_merge_sort; apply _.
Qed.

(** Every row of a frame has the kind of the frame. *)
Lemma read_csv_frame_kind input kd r :
  kd ∈ data (read_csv input) → r ∈ kd.2 → kind r = kd.1.
Proof.
  intros Hkd. rewrite (read_csv_frame input kd Hkd).
  by intros [? _]%list_elem_of_filter.
Qed.

(** Every row of a frame is a line of the file. *)
Lemma read_csv_frame_row input kd r :
  kd ∈ data (read_csv input) → r ∈ kd.2 →
  ∃ i c, input !! i = Some c ∧ r = to_row i c.
Proof.
  intros Hkd. rewrite (read_csv_frame input kd Hkd).
  intros [_ Hr]%list_elem_of_filter.
  rewrite merge_sort_Permutation in Hr.
  apply elem_of_lookup_imap_1 in Hr as (i & c & -> & Hi). eauto.
Qed.

Lemma get_kinds_read_csv input :
  get_kinds (read_csv input)
  = merge_sort String.le (remove_dups (csv_kind <$> input)).
Proof.
  unfold get_kinds, read_csv. simpl. rewrite groupby_kind_keys.
  apply (Sorted_unique String.le).
  - apply Sorted_merge_sort. apply _.
  - apply Sorted_merge_sort. apply _.
  - etrans; [apply merge_sort_Permutation|].
    symmetry. etrans; [apply merge_sort_Permutation|]. symmetry.
    assert (kind <$> merge_sort t0_le (imap to_row input) ≡ₚ csv_kind <$> input) as Hp.
    { rewrite merge_sort_Permutation. by rewrite (fmap_imap_const _ _ csv_kind). }
    apply NoDup_Permutation; [apply NoDup_remove_dups..|].
    intros k. rewrite !elem_of_remove_dups. by rewrite Hp.
Qed.

Lemma get_kinds_nil input : get_kinds (read_csv input) = [] ↔ input = [].
Proof.
  rewrite get_kinds_read_csv. split.
  - intros Hnil. destruct input as [|c input]; [done|].
    assert (csv_kind c ∈ merge_sort String.le (remove_dups (csv_kind <$> c :: input))) as Hin.
    { rewrite merge_sort_Permutation, elem_of_remove_dups. left. }
    rewrite Hnil in Hin. by apply elem_of_nil in Hin.
  - by intros ->.
Qed.

Lemma data_nil_kinds (self : TimelineTrace) : data self = [] ↔ get_kinds self = [].
Proof. unfold get_kinds. by destruct (data self). Qed.

(** ** What a returned slice is made of *)

Section frames.
Context (bnd : string * list row → Z * Z).
Implicit Types (s : list Z) (o : Z) (d : list (string * list row)).

Lemma rows_at_elem (df : list row) ps r :
  Forall (λ p, 0 ≤ p < Z.of_nat (length df)) ps →
  r ∈ rows_at df ps → ∃ p, Z.of_nat p ∈ ps ∧ df !! p = Some r.
Proof.
  intros Hall (p & -> & Hp)%list_elem_of_fmap.
  rewrite Forall_forall in Hall. specialize (Hall p Hp).
  exists (Z.to_nat p). split; [by rewrite Z2Nat.id by lia|].
  apply list_lookup_lookup_total_lt. lia.
Qed.

(** Every row of the result sits in the frame of some kind, at a local
    position inside the bounds of that kind. *)
Lemma frames_from_elem s o d r :
  Forall (in_frame bnd) d →
  r ∈ concat (frames_from bnd s o d) →
  ∃ kd p, kd ∈ d ∧ (bnd kd).1 ≤ Z.of_nat p < (bnd kd).2 ∧ kd.2 !! p = Some r.
Proof.
  intros Hall. revert o. induction Hall as [|kd d [Hlo Hhi] _ IH]; intros o Hr.
  { by apply elem_of_nil in Hr. }
  simpl in Hr. apply elem_of_app in Hr as [Hr|Hr].
  - pose proof (picks_range s o (bnd kd)) as Hpk.
    apply rows_at_elem in Hr as (p & Hp & Hr).
    2:{ eapply Forall_impl; [exact Hpk|]. simpl. lia. }
    rewrite Forall_forall in Hpk. specialize (Hpk _ Hp).
    exists kd, p. split; [left|done].
  - destruct (IH _ Hr) as (kd' & p & Hkd & Hp & Hl).
    exists kd', p. split; [by right|done].
Qed.

Lemma frames_from_no_sample o d : concat (frames_from bnd [] o d) = [].
Proof. revert o. induction d as [|kd d IH]; intros o; simpl; [done|]. apply IH. Qed.
End frames.

(** ** Inversion of a returned result *)

Lemma bounds_in_frame time_range kinds d :
  Forall (in_frame (bounds_of time_range kinds)) d.
Proof. apply Forall_forall. intros kd _. apply bounds_of_range. Qed.

Lemma get_sampled_time_slice_Ok self time_range kinds num_samples draw sl total :
  indexed self →
  get_sampled_time_slice self time_range kinds num_samples draw = Ok (sl, total) →
  ∃ s, sampled_idxs_of (num_total self time_range kinds) num_samples draw = Ok s
       ∧ data self ≠ []
       ∧ sl = concat (frames_from (bounds_of time_range kinds) s 0 (data self))
       ∧ total = num_total self time_range kinds.
Proof.
  intros Hidx. rewrite get_sampled_time_slice_eq by done.
  destruct (sampled_idxs_of _ _ _) as [s|e]; [|done]. simpl.
  destruct (data self) as [|kd d] eqn:Hd; [done|].
  intros [= <- <-]. by exists s.
Qed.

(** A returned row lies in the frame of a visible kind, between the bounds
    of that kind. *)
Lemma returned_row self time_range kinds num_samples draw sl total r :
  indexed self →
  get_sampled_time_slice self time_range kinds num_samples draw = Ok (sl, total) →
  r ∈ sl →
  ∃ kd p, kd ∈ data self ∧ kd.1 ∈ kinds ∧ kd.2 !! p = Some r
          ∧ (searchsorted_left ((sort_t1 kd.2).*2) time_range.1 ≤ p)%nat
          ∧ (p < searchsorted_right (t0 <$> kd.2) time_range.2)%nat.
Proof.
  intros Hidx Hok Hr.
  destruct (get_sampled_time_slice_Ok _ _ _ _ _ _ _ Hidx Hok) as (s & _ & _ & -> & _).
  apply frames_from_elem in Hr as (kd & p & Hkd & Hp & Hl); [|apply bounds_in_frame].
  exists kd, p. unfold bounds_of in Hp.
  destruct (decide (kd.1 ∈ kinds)); simpl in Hp; [|lia].
  repeat split; [done..|lia|lia].
Qed.

(** * Range filter *)




(** ** The sampling step *)

Lemma Sorted_seqZ m n : Sorted Z.le (seqZ m n).
Proof.
  remember (Z.to_nat n) as k eqn:Hk. revert m n Hk.
  induction k as [|k IH]; intros m n Hk.
  - rewrite seqZ_nil by lia. constructor.
  - rewrite seqZ_cons by lia. constructor; [apply IH; lia|].
    destruct (decide (0 < Z.pred n)).
    + rewrite seqZ_cons by lia. constructor. lia.
    + rewrite seqZ_nil by lia. constructor.
Qed.

Lemma merge_sort_sorted (l : list Z) : Sorted Z.le l → merge_sort Z.le l = l.
Proof.
  intros Hl. apply (Sorted_unique Z.le); [|done|apply merge_sort_Permutation].
  apply Sorted_merge_sort. apply _.
Qed.

(** Within the budget the virtual indices are all of [range(num_total)], and
    the random source is not read. *)
Lemma sampled_idxs_within total num_samples draw :
  total ≤ num_samples → sampled_idxs_of total num_samples draw = Ok (seqZ 0 total).
Proof.
  intros Hle. unfold sampled_idxs_of.
  destruct (Z.ltb_spec num_samples total); [lia|]. simpl.
  by rewrite merge_sort_sorted by apply Sorted_seqZ.
Qed.

Lemma sampled_idxs_beyond total num_samples draw :
  0 ≤ num_samples < total →
  sampled_idxs_of total num_samples draw = Ok (merge_sort Z.le draw).
Proof.
  intros Hlt. unfold sampled_idxs_of, random_sample.
  destruct (Z.ltb_spec num_samples total); [|lia].
  destruct (Z.ltb_spec num_samples 0); [lia|].
  rewrite length_seqZ.
  destruct (Z.ltb_spec (Z.of_nat (Z.to_nat total)) num_samples); [lia|]. done.
Qed.

Lemma sampled_idxs_negative total num_samples draw :
  num_samples < 0 → num_samples < total →
  sampled_idxs_of total num_samples draw = Raise (ValueError sample_msg).
Proof.
  intros Hneg Hlt. unfold sampled_idxs_of, random_sample.
  destruct (Z.ltb_spec num_samples total); [|lia].
  destruct (Z.ltb_spec num_samples 0); [|lia]. done.
Qed.

(** ** Hidden kinds *)

Lemma bounds_of_hidden time_range kinds kd :
  kd.1 ∉ kinds → bounds_of time_range kinds kd = (0, 0).
Proof. intros Hk. unfold bounds_of. by destruct (decide (kd.1 ∈ kinds)). Qed.

Lemma offsets_lookup o cs j c :
  cs !! j = Some c →
  ∃ l, lefts_from o cs !! j = Some l ∧ cumsum_from o cs !! j = Some (l + c).
Proof.
  revert o j. induction cs as [|c' cs IH]; intros o j Hj; [done|].
  destruct j as [|j]; simpl in *.
  - simplify_eq. by exists o.
  - by apply IH.
Qed.

Lemma sum_list_Z_zero (cs : list Z) : Forall (λ c, c = 0) cs → sum_list_Z cs = 0.
Proof. induction 1 as [|c cs -> _ IH]; simpl; [done|]. lia. Qed.

Lemma num_total_no_kinds self time_range :
  indexed self → num_total self time_range ∅ = 0.
Proof.
  intros Hidx. rewrite num_total_sum, num_list_bounds by done.
  apply sum_list_Z_zero. rewrite <- list_fmap_compose.
  apply Forall_fmap, Forall_forall. intros kd _. simpl.
  rewrite bounds_of_hidden; [done|]. apply not_elem_of_empty.
Qed.

(** * Kind filter *)

(** C6 (amended).  Every event of a returned slice has a visible kind; a
    hidden kind has count 0 and its span of the virtual index space is empty
    (left offset = right offset); with no visible kind the slice is empty and
    the total is 0, provided the index has a kind and the budget is not
    negative. *)
Theorem kind_filter input time_range kinds num_samples draw :
  (∀ sl total,
     get_sampled_time_slice (read_csv input) time_range kinds num_samples draw
       = Ok (sl, total) →
     Forall (λ r, kind r ∈ kinds) sl)
  ∧ (∀ j k,
       get_kinds (read_csv input) !! j = Some k → k ∉ kinds →
       let nsr := num_sum_right_of (num_list (read_csv input) time_range kinds) in
       num_list (read_csv input) time_range kinds !! j = Some 0
       ∧ num_sum_left_of nsr !! j = nsr !! j)
  ∧ (get_kinds (read_csv input) ≠ [] → 0 ≤ num_samples →
     get_sampled_time_slice (read_csv input) time_range ∅ num_samples draw
       = Ok ([], 0)).
Proof.
  pose proof (read_csv_indexed input) as Hidx. split; [|split].
  - intros sl total Hok. apply Forall_forall. intros r Hr.
    destruct (returned_row _ _ _ _ _ _ _ r Hidx Hok Hr)
      as (kd & p & Hkd & Hvis & Hl & _).
    rewrite (read_csv_frame_kind input kd r Hkd); [done|].
    by eapply list_elem_of_lookup_2.
  - intros j k Hj Hk nsr. subst nsr.
    unfold get_kinds in Hj. rewrite list_lookup_fmap in Hj.
    destruct (data (read_csv input) !! j) as [kd|] eqn:Hkd; [|done].
    simpl in Hj. injection Hj as <-.
    assert (num_list (read_csv input) time_range kinds !! j = Some 0) as Hnl.
    { rewrite num_list_bounds by done. rewrite !list_lookup_fmap, Hkd. simpl.
      by rewrite bounds_of_hidden. }
    split; [done|]. unfold num_sum_right_of.
    rewrite num_sum_left_of_cumsum. unfold cumsum.
    destruct (offsets_lookup 0 _ _ _ Hnl) as (l & -> & ->). f_equal. lia.
  - intros Hne Hn. rewrite get_sampled_time_slice_eq by done.
    rewrite num_total_no_kinds by done.
    rewrite sampled_idxs_within by done.
    change (seqZ 0 0) with (@nil Z). bind_ok.
    destruct (data (read_csv input)) as [|kd d] eqn:Hd.
    { by apply data_nil_kinds in Hd. }
    by rewrite frames_from_no_sample.
Qed.

Lemma kind_filter_witness :
  let sl := [to_row 0 (CsvRow 0 0 0 100 "b"); to_row 1 (CsvRow 1 1 1 2 "b")] in
  Forall (λ r, kind r ∈ ({["b"]} : gset string)) sl
  ∧ num_list (read_csv ex_nested) (0, 60) {["b"]} !! 0%nat = Some 0
  ∧ get_sampled_time_slice (read_csv ex_nested) (0, 60) ∅ 10 [] = Ok ([], 0).
Proof.
  intros sl.
  destruct (kind_filter ex_nested (0, 60) {["b"]} 10 []) as (H1 & H2 & H3).
  split; [|split].
  - apply (H1 sl 2). vm_compute. reflexivity.
  - apply (H2 0%nat "a"); [vm_compute; reflexivity|].
    rewrite elem_of_singleton. discriminate.
  - apply H3; [vm_compute; discriminate|lia].
Defined.

(** C6 as stated fails in its last part: with no visible kind the call
    raises when the budget is negative, and when the index has no kind. *)
Lemma kind_filter_counterexample :
  get_sampled_time_slice (read_csv ex_nested) (0, 60) ∅ (-1) []
    = Raise (ValueError sample_msg)
  ∧ get_sampled_time_slice (read_csv []) (0, 60) ∅ 10 []
    = Raise (ValueError concat_msg).
Proof. split; vm_compute; reflexivity. Qed.

(** * Degenerate budgets and the empty index *)

(** C5 (amended).  On an index with at least one kind a budget of 0 gives
    the empty slice; a negative budget raises [ValueError] as soon as it is
    below the total, and gives the empty slice otherwise. *)
Theorem nonpositive_budget input time_range kinds num_samples draw :
  get_kinds (read_csv input) ≠ [] →
  num_samples ≤ 0 →
  random_source_ok (num_total (read_csv input) time_range kinds) num_samples draw →
  get_sampled_time_slice (read_csv input) time_range kinds num_samples draw
  = if (num_samples <? 0)
       && (num_samples <? num_total (read_csv input) time_range kinds)
    then Raise (ValueError sample_msg)
    else Ok ([], num_total (read_csv input) time_range kinds).
Proof.
  intros Hne Hn Hdraw. pose proof (read_csv_indexed input) as Hidx.
  rewrite get_sampled_time_slice_eq by done.
  set (total := num_total (read_csv input) time_range kinds) in *.
  assert (∀ s, s = [] →
    match data (read_csv input) with
    | [] => Raise (ValueError concat_msg)
    | _ => Ok (concat (frames_from (bounds_of time_range kinds) s 0
                         (data (read_csv input))), total)
    end = Ok ([], total)) as Hempty.
  { intros s ->. destruct (data (read_csv input)) as [|kd d] eqn:Hd.
    { by apply data_nil_kinds in Hd. }
    by rewrite frames_from_no_sample. }
  destruct (Z.ltb_spec num_samples 0) as [Hneg|Hzero];
    destruct (Z.ltb_spec num_samples total) as [Hlt|Hge]; simpl.
  - by rewrite sampled_idxs_negative.
  - rewrite sampled_idxs_within by done. bind_ok.
    apply Hempty. apply seqZ_nil. lia.
  - rewrite sampled_idxs_beyond by lia. bind_ok. apply Hempty.
    destruct (Hdraw ltac:(lia)) as (Hlen & _).
    destruct draw; [done|simpl in Hlen; lia].
  - rewrite sampled_idxs_within by done. bind_ok.
    apply Hempty. apply seqZ_nil. lia.
Qed.

Lemma nonpositive_budget_witness :
  get_sampled_time_slice (read_csv ex_nested) (0, 60) {["a"; "b"]} 0 []
  = Ok ([], 3).
Proof.
  rewrite (nonpositive_budget ex_nested (0, 60) {["a"; "b"]} 0 []).
  - vm_compute. reflexivity.
  - vm_compute. discriminate.
  - lia.
  - intros _. repeat split; [constructor|constructor].
Defined.

(** C5 as stated fails for a strictly negative budget: the call raises. *)
Lemma nonpositive_budget_counterexample :
  -1 ≤ 0
  ∧ get_sampled_time_slice (read_csv ex_nested) (0, 60) {["a"; "b"]} (-1) []
    = Raise (ValueError sample_msg).
Proof. split; [lia|]. vm_compute. reflexivity. Qed.

(** C10.  On an index without kinds every query raises: the concatenation
    of zero frames raises [ValueError], unless the budget is negative, in
    which case the sampling step has raised before.  So a query that returns
    a slice, empty or not, was made on an index with at least one kind. *)
Theorem no_kinds_raises input time_range kinds num_samples draw :
  (get_kinds (read_csv input) = [] →
   get_sampled_time_slice (read_csv input) time_range kinds num_samples draw
   = Raise (ValueError (if num_samples <? 0 then sample_msg else concat_msg)))
  ∧ (∀ sl total,
       get_sampled_time_slice (read_csv input) time_range kinds num_samples draw
         = Ok (sl, total) →
       get_kinds (read_csv input) ≠ []).
Proof.
  assert (get_kinds (read_csv input) = [] →
    get_sampled_time_slice (read_csv input) time_range kinds num_samples draw
    = Raise (ValueError (if num_samples <? 0 then sample_msg else concat_msg)))
    as Hraise.
  { intros ->%get_kinds_nil.
    rewrite get_sampled_time_slice_eq by apply read_csv_indexed.
    change (num_total (read_csv []) time_range kinds) with 0.
    destruct (Z.ltb_spec num_samples 0).
    - by rewrite sampled_idxs_negative.
    - by rewrite sampled_idxs_within. }
  split; [done|]. intros sl total Hok Hnil. by rewrite Hraise in Hok.
Qed.

Lemma no_kinds_raises_witness :
  get_sampled_time_slice (read_csv []) (0, 60) {["a"]} 10 []
  = Raise (ValueError concat_msg).
Proof.
  apply (proj1 (no_kinds_raises [] (0, 60) {["a"]} 10 [])). reflexivity.
Defined.

(** * Budget *)

Lemma filter_range_split (s : list Z) a b c :
  a ≤ b ≤ c →
  Nat.add (length (filter (λ v, a ≤ v < b) s))
          (length (filter (λ v, b ≤ v < c) s))
  = length (filter (λ v, a ≤ v < c) s).
Proof.
  intros Habc. induction s as [|x s IH]; [done|].
  rewrite !filter_cons. repeat case_decide; simpl; lia.
Qed.

Lemma filter_range_empty (s : list Z) a b :
  b ≤ a → filter (λ v, a ≤ v < b) s = [].
Proof.
  intros Hba. induction s as [|x s IH]; [done|].
  rewrite filter_cons_False by lia. exact IH.
Qed.

Lemma filter_range_all (s : list Z) a b :
  Forall (λ v, a ≤ v < b) s → filter (λ v, a ≤ v < b) s = s.
Proof.
  induction 1 as [|x s Hx _ IH]; [done|].
  rewrite filter_cons_True by done. by rewrite IH.
Qed.

Lemma sum_list_Z_nonneg (cs : list Z) : Forall (λ c, 0 ≤ c) cs → 0 ≤ sum_list_Z cs.
Proof. induction 1 as [|c cs Hc _ IH]; simpl; lia. Qed.

Section counting.
Context (bnd : string * list row → Z * Z).
Implicit Types (s : list Z) (o : Z) (d : list (string * list row)).

Local Abbreviation count_of := (count_of bnd).

(** With no negative count the spans of the kinds tile the virtual index
    space, so the result has one row per sampled index. *)
Lemma length_frames_from s o d :
  Forall (λ kd, 0 ≤ count_of kd) d →
  length (concat (frames_from bnd s o d))
  = length (filter (λ v, o ≤ v < o + sum_list_Z (count_of <$> d)) s).
Proof.
  intros Hall. revert o. induction Hall as [|kd d Hc Hall IH]; intros o.
  - simpl. by rewrite filter_range_empty by lia.
  - simpl. rewrite length_app, IH. unfold rows_at, picks.
    rewrite !length_fmap. fold (count_of kd).
    pose proof (sum_list_Z_nonneg (count_of <$> d)) as Hsum.
    rewrite (filter_range_split s o (o + count_of kd)).
    + f_equal. apply list_filter_iff. intros v.
      change (list_fmap _ _ count_of d) with (count_of <$> d). lia.
    + assert (0 ≤ sum_list_Z (count_of <$> d)); [|lia].
      apply Hsum. by apply Forall_fmap.
Qed.
End counting.

(** ** The bounds as counts *)

Lemma filter_none {A} (P : A → Prop) `{∀ x, Decision (P x)} (l : list A) :
  Forall (λ x, ¬ P x) l → filter P l = [].
Proof.
  induction 1 as [|x l Hx _ IH]; [done|]. by rewrite filter_cons_False.
Qed.

Lemma searchsorted_left_count (a : list Z) v :
  Sorted Z.le a → searchsorted_left a v = length (filter (λ x, x < v) a).
Proof.
  intros Hs. induction Hs as [|x a Hs IH Hd]; [done|].
  simpl. rewrite filter_cons. destruct (Z.ltb_spec x v); case_decide; try lia.
  - simpl. by rewrite IH.
  - rewrite filter_none; [done|]. apply Forall_forall. intros y Hy.
    pose proof (Sorted_Z_le_head x a y ltac:(by constructor) Hy). lia.
Qed.

Lemma searchsorted_right_count (a : list Z) v :
  Sorted Z.le a → searchsorted_right a v = length (filter (λ x, x ≤ v) a).
Proof.
  intros Hs. induction Hs as [|x a Hs IH Hd]; [done|].
  simpl. rewrite filter_cons. destruct (Z.leb_spec x v); case_decide; try lia.
  - simpl. by rewrite IH.
  - rewrite filter_none; [done|]. apply Forall_forall. intros y Hy.
    pose proof (Sorted_Z_le_head x a y ltac:(by constructor) Hy). lia.
Qed.

Lemma length_filter_fmap_le {A} (f g : A → Z) (P Q : Z → Prop)
    `{∀ x, Decision (P x), ∀ x, Decision (Q x)} (l : list A) :
  (∀ x, x ∈ l → P (f x) → Q (g x)) →
  (length (filter P (f <$> l)) ≤ length (filter Q (g <$> l)))%nat.
Proof.
  induction l as [|x l IH]; intros HPQ; [done|].
  csimpl. rewrite !filter_cons.
  assert (length (filter P (f <$> l)) ≤ length (filter Q (g <$> l)))%nat as Hl.
  { apply IH. intros y Hy. apply HPQ. by right. }
  pose proof (HPQ x ltac:(left)) as Hx.
  repeat case_decide; simpl; try lia. tauto.
Qed.

(** On the index built by [read_csv], [lo_k] counts the events of kind [k]
    that end before the range starts and [hi_k] those that start no later
    than the range ends. *)
Lemma bounds_of_counts input time_range kinds kd :
  kd ∈ data (read_csv input) → kd.1 ∈ kinds →
  bounds_of time_range kinds kd
  = (Z.of_nat (length (filter (λ x, x < time_range.1) (t1 <$> kd.2))),
     Z.of_nat (length (filter (λ x, x ≤ time_range.2) (t0 <$> kd.2)))).
Proof.
  intros Hkd Hvis. unfold bounds_of. rewrite decide_True by done.
  rewrite searchsorted_left_count by apply sort_t1_sorted.
  rewrite searchsorted_right_count by by eapply read_csv_t0_sorted.
  by rewrite sort_t1_values.
Qed.

Lemma num_list_counts self time_range kinds :
  indexed self →
  num_list self time_range kinds
  = count_of (bounds_of time_range kinds) <$> data self.
Proof.
  intros Hidx. rewrite num_list_bounds by done.
  rewrite <- list_fmap_compose. done.
Qed.


(** When no event of a visible kind both starts no later than the end of the
    range and ends no earlier than its start, no count is positive. *)
Lemma no_span_counts input time_range kinds :
  (∀ c, c ∈ input → csv_kind c ∈ kinds →
        ¬ (csv_t0 c ≤ time_range.2 ∧ time_range.1 ≤ csv_t1 c)) →
  Forall (λ c, c ≤ 0) (num_list (read_csv input) time_range kinds).
Proof.
  intros Hspan. rewrite num_list_counts by apply read_csv_indexed.
  apply Forall_fmap, Forall_forall. intros kd Hkd. unfold count_of. simpl.
  destruct (decide (kd.1 ∈ kinds)) as [Hvis|Hhid].
  2:{ rewrite bounds_of_hidden by done. done. }
  rewrite (bounds_of_counts input) by done. simpl.
  assert (Nat.le (length (filter (λ x, x ≤ time_range.2) (t0 <$> kd.2)))
                 (length (filter (λ x, x < time_range.1) (t1 <$> kd.2))));
    [|lia].
  apply length_filter_fmap_le. intros r Hr Hle.
  pose proof (read_csv_frame_kind input kd r Hkd Hr) as Hk.
  destruct (read_csv_frame_row input kd r Hkd Hr) as (i & c & Hi & ->).
  simpl in *. 
  pose proof (Hspan c ltac:(by eapply list_elem_of_lookup_2)
                      ltac:(by rewrite Hk)). lia.
Qed.

(** The sampled indices lie in the virtual index space, and there are
    [min(num_samples, total)] of them. *)
Lemma sampled_idxs_spec total num_samples draw :
  0 ≤ num_samples → 0 ≤ total →
  random_source_ok total num_samples draw →
  ∃ s, sampled_idxs_of total num_samples draw = Ok s
       ∧ Forall (λ v, 0 ≤ v < total) s
       ∧ NoDup s
       ∧ Z.of_nat (length s) = Z.min num_samples total.
Proof.
  intros Hn Htotal Hdraw. destruct (decide (num_samples < total)) as [Hlt|Hge].
  - destruct (Hdraw ltac:(lia)) as (Hlen & Hnd & Hin).
    exists (merge_sort Z.le draw). rewrite sampled_idxs_beyond by lia.
    split; [done|]. rewrite merge_sort_Permutation. repeat split; [done..|lia].
  - exists (seqZ 0 total). rewrite sampled_idxs_within by lia.
    split; [done|]. split; [|split].
    + apply Forall_seqZ. intros; lia.
    + apply NoDup_seqZ.
    + rewrite length_seqZ. lia.
Qed.

(** C2 (amended).  On an index with at least one kind, for a budget that is
    not negative and a query in which no kind has a negative count (as is the
    case when the range is not inverted and every event ends no earlier than
    it starts), the returned slice has [min(max_samples, true_total_count)]
    events. *)
Theorem budget_respected input time_range kinds num_samples draw :
  get_kinds (read_csv input) ≠ [] →
  0 ≤ num_samples →
  Forall (λ c, 0 ≤ c) (num_list (read_csv input) time_range kinds) →
  random_source_ok (num_total (read_csv input) time_range kinds) num_samples draw →
  ∃ sl,
    get_sampled_time_slice (read_csv input) time_range kinds num_samples draw
      = Ok (sl, num_total (read_csv input) time_range kinds)
    ∧ Z.of_nat (length sl)
      = Z.min num_samples (num_total (read_csv input) time_range kinds).
Proof.
  intros Hne Hn Hcounts Hdraw. pose proof (read_csv_indexed input) as Hidx.
  rewrite get_sampled_time_slice_eq by done.
  pose proof (num_total_sum (read_csv input) time_range kinds) as Htotal.
  pose proof (sum_list_Z_nonneg _ Hcounts) as Hpos.
  set (total := num_total (read_csv input) time_range kinds) in *.
  destruct (sampled_idxs_spec total num_samples draw)
    as (s & -> & Hin & _ & Hlen); [lia..|done|].
  bind_ok. destruct (data (read_csv input)) as [|kd d] eqn:Hd.
  { by apply data_nil_kinds in Hd. }
  eexists. split; [reflexivity|]. rewrite <- Hd.
  rewrite num_list_counts in Hcounts, Htotal by done.
  rewrite Forall_fmap in Hcounts.
  rewrite length_frames_from by exact Hcounts.
  rewrite <- Htotal, Z.add_0_l. by rewrite filter_range_all.
Qed.

Lemma budget_respected_witness :
  ∃ sl,
    get_sampled_time_slice (read_csv ex_chain) (0, 50) {["a"]} 2 [2; 0]
      = Ok (sl, 3)
    ∧ Z.of_nat (length sl) = 2.
Proof.
  destruct (budget_respected ex_chain (0, 50) {["a"]} 2 [2; 0])
    as (sl & Hok & Hlen).
  - vm_compute. discriminate.
  - lia.
  - vm_compute. repeat constructor. discriminate.
  - intros _. split; [done|]. split.
    + apply (bool_decide_unpack _). vm_compute. exact I.
    + repeat constructor; vm_compute; congruence.
  - exists sl. split; [exact Hok|exact Hlen].
Defined.

(** C2 as stated fails: an inverted range reports a negative total with an
    empty slice, a negative budget raises, and so does an index without
    kinds. *)
Lemma budget_respected_counterexample :
  (get_sampled_time_slice (read_csv [CsvRow 0 0 0 1 "a"]) (5, -1) {["a"]} 10 []
     = Ok ([], -1)
   ∧ Z.of_nat (length (@nil row)) ≠ Z.min 10 (-1))
  ∧ get_sampled_time_slice (read_csv ex_chain) (0, 50) {["a"]} (-1) []
    = Raise (ValueError sample_msg)
  ∧ get_sampled_time_slice (read_csv []) (0, 50) {["a"]} 10 []
    = Raise (ValueError concat_msg).
Proof.
  split; [split|split]; try (vm_compute; reflexivity). vm_compute. discriminate.
Qed.

(** * Exactness within the budget *)

Lemma filter_seqZ_range total o c :
  0 ≤ o → 0 ≤ c → o + c ≤ total →
  filter (λ v, o ≤ v < o + c) (seqZ 0 total) = seqZ o c.
Proof.
  intros Ho Hc Hle.
  replace total with (o + (c + (total - o - c))) by lia.
  rewrite !seqZ_app by lia. rewrite !filter_app.
  rewrite (filter_none _ (seqZ 0 o)).
  2:{ apply Forall_seqZ. intros; lia. }
  rewrite (filter_none _ (seqZ (0 + o + c) _)).
  2:{ apply Forall_seqZ. intros; lia. }
  rewrite app_nil_r. simpl. apply filter_range_all.
  apply Forall_seqZ. intros; lia.
Qed.

Lemma rows_at_seqZ (df : list row) lo c :
  0 ≤ lo → 0 ≤ c → lo + c ≤ Z.of_nat (length df) →
  rows_at df (seqZ lo c) = slice (Z.to_nat lo) (Z.to_nat (lo + c)) df.
Proof.
  intros Hlo Hc Hle. unfold rows_at, slice. apply list_eq. intros i.
  rewrite list_lookup_fmap.
  destruct (decide (Z.of_nat i < c)) as [Hi|Hi].
  - rewrite lookup_seqZ_lt by done. simpl.
    rewrite lookup_take_lt by lia. rewrite lookup_drop.
    replace (Z.to_nat (lo + Z.of_nat i)) with (Z.to_nat lo + i)%nat by lia.
    symmetry. apply list_lookup_lookup_total_lt. lia.
  - rewrite lookup_seqZ_ge by lia. by rewrite lookup_take_ge by lia.
Qed.

Lemma frames_from_full bnd total o (d : list (string * list row)) :
  Forall (in_frame bnd) d →
  Forall (λ kd, 0 ≤ count_of bnd kd) d →
  0 ≤ o → o + sum_list_Z (count_of bnd <$> d) ≤ total →
  frames_from bnd (seqZ 0 total) o d
  = (λ kd, slice (Z.to_nat (bnd kd).1) (Z.to_nat (bnd kd).2) kd.2) <$> d.
Proof.
  intros Hin Hcnt. revert o.
  induction Hin as [|kd d [Hlo Hhi] _ IH]; intros o Ho Hle; [done|].
  apply Forall_cons_1 in Hcnt as [Hc Hcnt]. csimpl in *.
  pose proof (sum_list_Z_nonneg (count_of bnd <$> d)
                ltac:(by apply Forall_fmap)) as Hsum.
  change (count_of bnd kd) with ((bnd kd).2 - (bnd kd).1) in Hc, Hle. f_equal.
  - unfold picks. rewrite filter_seqZ_range by lia.
    rewrite (list_fmap_ext _ (Z.add ((bnd kd).1 - o)) (seqZ o _)).
    2:{ intros _ v _. lia. }
    rewrite fmap_add_seqZ.
    replace ((bnd kd).1 - o + o) with (bnd kd).1 by lia.
    rewrite rows_at_seqZ by lia.
    by replace ((bnd kd).1 + ((bnd kd).2 - (bnd kd).1)) with (bnd kd).2 by lia.
  - apply IH; [done|lia|lia].
Qed.

(** C3 (amended).  On an index with at least one kind, when no kind has a
    negative count and the total is within the budget, the call returns the
    rows at local positions [lo_k, hi_k) of every visible kind, in kind order
    then ascending position, whatever the random source holds, and the total
    is the number of returned events. *)
Theorem exact_within_budget input time_range kinds num_samples draw :
  get_kinds (read_csv input) ≠ [] →
  Forall (λ c, 0 ≤ c) (num_list (read_csv input) time_range kinds) →
  num_total (read_csv input) time_range kinds ≤ num_samples →
  get_sampled_time_slice (read_csv input) time_range kinds num_samples draw
    = Ok (full_ranges (read_csv input) time_range kinds,
          num_total (read_csv input) time_range kinds)
  ∧ num_total (read_csv input) time_range kinds
    = Z.of_nat (length (full_ranges (read_csv input) time_range kinds)).
Proof.
  intros Hne Hcounts Hle. pose proof (read_csv_indexed input) as Hidx.
  pose proof (num_total_sum (read_csv input) time_range kinds) as Htotal.
  pose proof (sum_list_Z_nonneg _ Hcounts) as Hpos.
  rewrite num_list_counts in Hcounts, Htotal by done.
  rewrite Forall_fmap in Hcounts.
  assert (concat (frames_from (bounds_of time_range kinds)
                    (seqZ 0 (num_total (read_csv input) time_range kinds)) 0
                    (data (read_csv input)))
          = full_ranges (read_csv input) time_range kinds) as Hfull.
  { unfold full_ranges. f_equal.
    apply frames_from_full; [apply bounds_in_frame|done|done|lia]. }
  split.
  - rewrite get_sampled_time_slice_eq by done.
    rewrite sampled_idxs_within by done. bind_ok.
    destruct (data (read_csv input)) as [|kd d] eqn:Hd.
    { by apply data_nil_kinds in Hd. }
    by rewrite Hfull.
  - rewrite <- Hfull. rewrite length_frames_from by exact Hcounts.
    rewrite <- Htotal, Z.add_0_l. rewrite filter_range_all.
    + rewrite length_seqZ. rewrite num_total_sum. lia.
    + apply Forall_seqZ. intros; lia.
Qed.

Lemma exact_within_budget_witness :
  get_sampled_time_slice (read_csv ex_chain) (8, 12) {["a"]} 10 [7; 7]
  = Ok ([to_row 0 (CsvRow 0 0 0 10 "a"); to_row 1 (CsvRow 1 5 1 20 "a")], 2).
Proof.
  destruct (exact_within_budget ex_chain (8, 12) {["a"]} 10 [7; 7]) as [Hok _].
  - vm_compute. discriminate.
  - vm_compute. repeat constructor. discriminate.
  - vm_compute. discriminate.
  - rewrite Hok. vm_compute. reflexivity.
Defined.

(** C3 as stated fails: for an inverted range the total is within the budget
    but is not the number of returned events. *)
Lemma exact_within_budget_counterexample :
  get_sampled_time_slice (read_csv [CsvRow 0 0 0 1 "a"]) (5, -1) {["a"]} 10 []
    = Ok ([], -1)
  ∧ -1 ≤ 10
  ∧ -1 ≠ Z.of_nat (length (@nil row)).
Proof. split; [vm_compute; reflexivity|]. split; [lia|]. simpl. lia. Qed.

(** * No duplicates *)

Lemma NoDup_fmap_eq {A B} (f : A → B) (l : list A) x y :
  NoDup (f <$> l) → x ∈ l → y ∈ l → f x = f y → x = y.
Proof.
  intros Hnd (i & Hi)%list_elem_of_lookup_1 (j & Hj)%list_elem_of_lookup_1 Hxy.
  assert (i = j) as ->; [|congruence].
  apply (NoDup_lookup (f <$> l) i j (f x)); [done|..].
  - by rewrite list_lookup_fmap, Hi.
  - by rewrite list_lookup_fmap, Hj, Hxy.
Qed.

Lemma NoDup_fmap_filter {A B} (f : A → B) (P : A → Prop)
    `{∀ x, Decision (P x)} (l : list A) :
  NoDup (f <$> l) → NoDup (f <$> filter P l).
Proof.
  induction l as [|x l IH]; [done|]. csimpl. intros [Hx Hl]%NoDup_cons.
  rewrite filter_cons. case_decide; [|by apply IH].
  csimpl. apply NoDup_cons. split; [|by apply IH].
  intros (y & Hxy & [_ Hy]%list_elem_of_filter)%list_elem_of_fmap.
  apply Hx. apply list_elem_of_fmap. eauto.
Qed.

Lemma elem_of_concat {A} (x : A) (ls : list (list A)) :
  x ∈ concat ls ↔ ∃ l, x ∈ l ∧ l ∈ ls.
Proof.
  induction ls as [|l ls IH]; simpl.
  - split; [by intros ?%elem_of_nil|]. by intros (l & _ & ?%elem_of_nil).
  - rewrite elem_of_app, IH. split.
    + intros [Hx|(l' & Hx & Hl')]; [exists l; split; [done|left]|].
      exists l'. split; [done|by right].
    + intros (l' & Hx & [->|Hl']%elem_of_cons); [by left|]. right. eauto.
Qed.

(** The frames of the index partition the lines of the file: no line occurs
    in two frames or twice in one. *)
Lemma NoDup_groups (df : list row) (ks : list string) :
  NoDup ks → NoDup (line <$> df) →
  NoDup (line <$> concat ((λ k, filter (λ r, kind r = k) df) <$> ks)).
Proof.
  intros Hks Hdf. induction Hks as [|k ks Hk Hks IH]; [constructor|].
  csimpl. rewrite fmap_app. apply NoDup_app. split; [|split].
  - by apply NoDup_fmap_filter.
  - intros x (r1 & -> & [Hk1 Hr1]%list_elem_of_filter)%list_elem_of_fmap.
    intros (r2 & Hline & Hr2)%list_elem_of_fmap.
    apply elem_of_concat in Hr2 as (fr & Hr2 & Hfr).
    apply list_elem_of_fmap in Hfr as (k' & -> & Hk').
    apply list_elem_of_filter in Hr2 as [Hk2 Hr2].
    assert (r1 = r2) as <- by by eapply (NoDup_fmap_eq line df).
    apply Hk. by rewrite <- Hk1, Hk2.
  - exact IH.
Qed.

Lemma read_csv_lines input :
  NoDup (line <$> concat (data (read_csv input)).*2).
Proof.
  unfold read_csv, groupby_kind. simpl. rewrite <- list_fmap_compose.
  apply NoDup_groups.
  - rewrite merge_sort_Permutation. apply NoDup_remove_dups.
  - rewrite merge_sort_Permutation.
    rewrite fmap_imap.
    rewrite (imap_ext _ (λ i _, id i)) by done.
    rewrite imap_seq_0, list_fmap_id. apply NoDup_seq.
Qed.

Lemma NoDup_picks s o b : NoDup s → NoDup (picks s o b).
Proof.
  intros Hs. unfold picks. apply NoDup_fmap_2_strong.
  - intros x y _ _. lia.
  - by apply NoDup_filter.
Qed.

Lemma NoDup_rows_at (df : list row) ps :
  NoDup (line <$> df) → NoDup ps →
  Forall (λ p, 0 ≤ p < Z.of_nat (length df)) ps →
  NoDup (line <$> rows_at df ps).
Proof.
  intros Hdf Hps Hin. unfold rows_at. rewrite <- list_fmap_compose.
  apply NoDup_fmap_2_strong; [|done].
  rewrite Forall_forall in Hin.
  intros p q Hp%Hin Hq%Hin Hpq. simpl in Hpq.
  assert (Z.to_nat p = Z.to_nat q); [|lia].
  apply (NoDup_lookup (line <$> df) _ _ (line (df !!! Z.to_nat p))); [done|..].
  - rewrite list_lookup_fmap, list_lookup_lookup_total_lt by lia. done.
  - rewrite list_lookup_fmap, list_lookup_lookup_total_lt by lia.
    simpl. by rewrite Hpq.
Qed.

Lemma frames_from_subset bnd s o (d : list (string * list row)) r :
  Forall (in_frame bnd) d →
  r ∈ concat (frames_from bnd s o d) → r ∈ concat d.*2.
Proof.
  intros Hin Hr. apply frames_from_elem in Hr as (kd & p & Hkd & _ & Hl); [|done].
  apply elem_of_concat. exists kd.2. split.
  - by eapply list_elem_of_lookup_2.
  - by apply list_elem_of_fmap_2.
Qed.

Lemma NoDup_frames_from bnd s o (d : list (string * list row)) :
  NoDup s → Forall (in_frame bnd) d →
  NoDup (line <$> concat d.*2) →
  NoDup (line <$> concat (frames_from bnd s o d)).
Proof.
  intros Hs Hin. revert o.
  induction Hin as [|kd d [Hlo Hhi] Hin IH]; intros o Hd; [constructor|].
  csimpl in *. rewrite fmap_app in *.
  apply NoDup_app in Hd as (Hkd & Hdisj & Hd).
  apply NoDup_app. split; [|split].
  - apply NoDup_rows_at; [done|by apply NoDup_picks|].
    eapply Forall_impl; [apply picks_range|]. simpl. lia.
  - intros x (r & -> & Hr)%list_elem_of_fmap.
    intros (r' & Hline & Hr')%list_elem_of_fmap.
    apply (Hdisj (line r)).
    + apply list_elem_of_fmap_2.
      apply rows_at_elem in Hr as (p & _ & Hp).
      * by eapply list_elem_of_lookup_2.
      * eapply Forall_impl; [apply picks_range|]. simpl. lia.
    + rewrite Hline. apply list_elem_of_fmap_2.
      by eapply frames_from_subset.
  - by apply IH.
Qed.

(** C7.  For every query and every value of the random source that honours
    the contract of [random.sample], the sorted virtual indices are distinct
    and no line of the file occurs twice in the returned slice. *)
Theorem no_duplicates input time_range kinds num_samples draw sl total :
  random_source_ok (num_total (read_csv input) time_range kinds) num_samples draw →
  get_sampled_time_slice (read_csv input) time_range kinds num_samples draw
    = Ok (sl, total) →
  (∃ s, sampled_idxs_of (num_total (read_csv input) time_range kinds)
          num_samples draw = Ok s ∧ NoDup s)
  ∧ NoDup (line <$> sl).
Proof.
  intros Hdraw Hok. pose proof (read_csv_indexed input) as Hidx.
  destruct (get_sampled_time_slice_Ok _ _ _ _ _ _ _ Hidx Hok)
    as (s & Hs & _ & -> & _).
  assert (NoDup s) as Hnd.
  { set (n := num_total (read_csv input) time_range kinds) in *.
    destruct (decide (num_samples < n)) as [Hlt|Hge].
    - destruct (decide (num_samples < 0)) as [Hneg|Hpos].
      { by rewrite sampled_idxs_negative in Hs. }
      rewrite sampled_idxs_beyond in Hs by lia. injection Hs as <-.
      rewrite merge_sort_Permutation. by destruct (Hdraw ltac:(lia)) as (_ & ? & _).
    - rewrite sampled_idxs_within in Hs by lia. injection Hs as <-.
      apply NoDup_seqZ. }
  split; [by exists s|].
  apply NoDup_frames_from; [done|apply bounds_in_frame|apply read_csv_lines].
Qed.

Lemma no_duplicates_witness :
  NoDup (line <$> [to_row 0 (CsvRow 0 0 0 10 "a"); to_row 2 (CsvRow 2 30 2 40 "a")]).
Proof.
  apply (no_duplicates ex_chain (0, 50) {["a"]} 2 [2; 0] _ 3).
  - intros _. split; [done|]. split.
    + apply (bool_decide_unpack _). vm_compute. exact I.
    + repeat constructor; vm_compute; congruence.
  - vm_compute. reflexivity.
Defined.

(** * Inverted ranges *)

Lemma sum_list_Z_nonpos (cs : list Z) : Forall (λ c, c ≤ 0) cs → sum_list_Z cs ≤ 0.
Proof. induction 1 as [|c cs Hc _ IH]; simpl; lia. Qed.

(** C4 (amended).  On an index with at least one kind and for a budget that
    is not negative, a query whose range is inverted returns.  The count of
    a kind is [hi_k - lo_k], not clamped at 0, and the total is the sum of
    the counts; whenever the total is not positive the slice is empty; and
    the total is not positive when no event of a visible kind both starts
    no later than [end] and ends no earlier than [start]. *)
Theorem inverted_range input time_range kinds num_samples draw :
  get_kinds (read_csv input) ≠ [] →
  time_range.2 < time_range.1 →
  0 ≤ num_samples →
  ∃ sl,
    get_sampled_time_slice (read_csv input) time_range kinds num_samples draw
      = Ok (sl, num_total (read_csv input) time_range kinds)
    ∧ num_total (read_csv input) time_range kinds
      = sum_list_Z (zip_with Z.sub (index_end (read_csv input) time_range kinds)
                                   (index_start (read_csv input) time_range kinds))
    ∧ (num_total (read_csv input) time_range kinds ≤ 0 → sl = [])
    ∧ ((∀ c, c ∈ input → csv_kind c ∈ kinds →
             ¬ (csv_t0 c ≤ time_range.2 ∧ time_range.1 ≤ csv_t1 c)) →
       num_total (read_csv input) time_range kinds ≤ 0).
Proof.
  intros Hne Hinv Hn. pose proof (read_csv_indexed input) as Hidx.
  rewrite get_sampled_time_slice_eq by done.
  assert (∃ s, sampled_idxs_of (num_total (read_csv input) time_range kinds)
                 num_samples draw = Ok s
               ∧ (num_total (read_csv input) time_range kinds ≤ 0 → s = []))
    as (s & -> & Hs).
  { destruct (decide (num_samples < num_total (read_csv input) time_range kinds)).
    - exists (merge_sort Z.le draw). rewrite sampled_idxs_beyond by lia.
      split; [done|lia].
    - exists (seqZ 0 (num_total (read_csv input) time_range kinds)).
      rewrite sampled_idxs_within by lia. split; [done|]. apply seqZ_nil. }
  bind_ok. destruct (data (read_csv input)) as [|kd d] eqn:Hd.
  { by apply data_nil_kinds in Hd. }
  eexists. split; [reflexivity|]. split; [apply num_total_sum|]. split.
  - intros ->%Hs. apply frames_from_no_sample.
  - intros Hspan. rewrite num_total_sum.
    by apply sum_list_Z_nonpos, no_span_counts.
Qed.

Lemma inverted_range_witness :
  get_sampled_time_slice (read_csv [CsvRow 0 0 0 1 "a"]) (5, -1) {["a"]} 10 []
  = Ok ([], -1).
Proof.
  destruct (inverted_range [CsvRow 0 0 0 1 "a"] (5, -1) {["a"]} 10 [])
    as (sl & Hok & _ & Hempty & _).
  - vm_compute. discriminate.
  - simpl. lia.
  - lia.
  - rewrite Hok. rewrite Hempty by (vm_compute; discriminate).
    vm_compute. reflexivity.
Defined.

(** C4 as stated fails: for an inverted range the reported total is negative
    when an event lies strictly between [end] and [start], and the slice is
    not empty when an event spans from before [end] to after [start]. *)
Lemma inverted_range_counterexample :
  (-1 < 5
   ∧ get_sampled_time_slice (read_csv [CsvRow 0 0 0 1 "a"]) (5, -1) {["a"]} 10 []
     = Ok ([], -1))
  ∧ (4 < 6
     ∧ get_sampled_time_slice (read_csv [CsvRow 0 0 0 10 "a"]) (6, 4) {["a"]} 10 []
       = Ok ([to_row 0 (CsvRow 0 0 0 10 "a")], 1)).
Proof. repeat split; try lia; vm_compute; reflexivity. Qed.

(** * Kind order *)





(** * Lane positions *)



(** * Further properties of the query *)



(** X2.  The result depends on the random source only through the set of
    drawn indices: two draws that are permutations of each other give the
    same result, rows in the same order. *)
Theorem draw_order_irrelevant (self : TimelineTrace) time_range kinds
    num_samples draw1 draw2 :
  draw1 ≡ₚ draw2 →
  get_sampled_time_slice self time_range kinds num_samples draw1
  = get_sampled_time_slice self time_range kinds num_samples draw2.
Proof.
  intros Hperm. unfold get_sampled_time_slice.
  assert (∀ total, sampled_idxs_of total num_samples draw1
                   = sampled_idxs_of total num_samples draw2) as ->; [|done].
  intros total. unfold sampled_idxs_of, random_sample.
  destruct (num_samples <? total); [|done].
  destruct ((num_samples <? 0) || _); [done|]. simpl. f_equal.
  apply (Sorted_unique Z.le).
  - apply Sorted_merge_sort. apply _.
  - apply Sorted_merge_sort. apply _.
  - by rewrite !merge_sort_Permutation.
Qed.

Lemma draw_order_irrelevant_witness :
  get_sampled_time_slice (read_csv ex_chain) (0, 50) {["a"]} 2 [2; 0]
  = get_sampled_time_slice (read_csv ex_chain) (0, 50) {["a"]} 2 [0; 2].
Proof.
  apply draw_order_irrelevant. apply perm_swap.
Defined.

(** ** Row order of a slice *)











(** ** The index as a partition of the file *)





(** X6.  The end-time index lists the same kinds as the frames, in the same
    order; the series of a kind ascends in end time, its labels are the
    positions of the frame, each once, and every entry holds the end time of
    the row at the position it is labelled with. *)
Theorem t1_index_invariant input j k (ser : list (nat * Z)) :
  t1_index (read_csv input) !! j = Some (k, ser) →
  ∃ df, data (read_csv input) !! j = Some (k, df)
        ∧ Sorted Z.le ser.*2
        ∧ ser.*1 ≡ₚ seq 0 (length df)
        ∧ Forall (λ iv, t1 <$> df !! iv.1 = Some iv.2) ser.
Proof.
  rewrite (read_csv_indexed input). rewrite list_lookup_fmap.
  destruct (data (read_csv input) !! j) as [[k' df]|] eqn:Hj; [|done].
  simpl. intros [= <- <-]. exists df. split; [done|]. split; [|split].
  - apply sort_t1_sorted.
  - unfold sort_t1. rewrite merge_sort_Permutation.
    rewrite fmap_imap. rewrite (imap_ext _ (λ i _, id i)) by done.
    by rewrite imap_seq_0, list_fmap_id.
  - apply Forall_forall. intros [i v] Hiv. unfold sort_t1 in Hiv.
    rewrite merge_sort_Permutation in Hiv.
    apply elem_of_lookup_imap_1 in Hiv as (i' & r & [= -> ->] & Hr).
    simpl. by rewrite Hr.
Qed.

Lemma t1_index_invariant_witness :
  ∃ df, data (read_csv ex_nested) !! 1%nat = Some ("b", df)
        ∧ Sorted Z.le [2; 100]
        ∧ [1%nat; 0%nat] ≡ₚ seq 0 (length df)
        ∧ Forall (λ iv : nat * Z, t1 <$> df !! iv.1 = Some iv.2)
            [(1%nat, 2); (0%nat, 100)].
Proof.
  apply (t1_index_invariant ex_nested 1 "b" [(1%nat, 2); (0%nat, 100)]).
  vm_compute. reflexivity.
Defined.

(** ** Exact interval queries *)






(** * The time range of the trace *)

Lemma foldr_min_spec (x : Z) (l : list Z) :
  Forall (λ y, foldr Z.min x l ≤ y) (x :: l) ∧ foldr Z.min x l ∈ x :: l.
Proof.
  induction l as [|z l [Hall Hin]]; simpl.
  - split; [by repeat constructor|left].
  - apply Forall_cons_1 in Hall as [Hx Hl]. split.
    + repeat constructor; [lia..|]. eapply Forall_impl; [exact Hl|]. simpl. lia.
    + destruct (Z.min_spec z (foldr Z.min x l)) as [[_ ->]|[_ ->]].
      * right. left.
      * apply elem_of_cons in Hin as [->|Hin]; [left|right; by right].
Qed.

Lemma foldr_max_spec (x : Z) (l : list Z) :
  Forall (λ y, y ≤ foldr Z.max x l) (x :: l) ∧ foldr Z.max x l ∈ x :: l.
Proof.
  induction l as [|z l [Hall Hin]]; simpl.
  - split; [by repeat constructor|left].
  - apply Forall_cons_1 in Hall as [Hx Hl]. split.
    + repeat constructor; [lia..|]. eapply Forall_impl; [exact Hl|]. simpl. lia.
    + destruct (Z.max_spec z (foldr Z.max x l)) as [[_ ->]|[_ ->]].
      * apply elem_of_cons in Hin as [->|Hin]; [left|right; by right].
      * right. left.
Qed.

Lemma column_min_spec col m :
  column_min col = Some m → Forall (λ y, m ≤ y) col ∧ m ∈ col.
Proof. destruct col as [|x l]; [done|]. intros [= <-]. apply foldr_min_spec. Qed.

Lemma column_max_spec col m :
  column_max col = Some m → Forall (λ y, y ≤ m) col ∧ m ∈ col.
Proof. destruct col as [|x l]; [done|]. intros [= <-]. apply foldr_max_spec. Qed.

Lemma get_time_range_spec input tmin tmax :
  get_time_range input = (Some tmin, Some tmax) →
  Forall (λ c, tmin ≤ csv_t0 c ∧ csv_t1 c ≤ tmax) input
  ∧ (∃ c, c ∈ input ∧ csv_t0 c = tmin)
  ∧ (∃ c, c ∈ input ∧ csv_t1 c = tmax).
Proof.
  unfold get_time_range, time_min_of, time_max_of.
  intros [= [Hmin Hmin_in]%column_min_spec [Hmax Hmax_in]%column_max_spec].
  rewrite Forall_fmap in Hmin, Hmax. split; [|split].
  - rewrite Forall_forall in Hmin, Hmax. apply Forall_forall. intros c Hc.
    split; [by apply Hmin|by apply Hmax].
  - apply list_elem_of_fmap in Hmin_in as (c & -> & Hc). eauto.
  - apply list_elem_of_fmap in Hmax_in as (c & -> & Hc). eauto.
Qed.

(** X8.  For a file with at least one line [get_time_range] returns the
    least start time and the greatest end time: both are attained by some
    event, and every event starts no earlier than the first and ends no
    later than the second.  For an empty file both are undefined. *)
Theorem time_range_encloses input :
  match input with
  | [] => get_time_range input = (None, None)
  | _ => ∃ tmin tmax,
      get_time_range input = (Some tmin, Some tmax)
      ∧ Forall (λ c, tmin ≤ csv_t0 c ∧ csv_t1 c ≤ tmax) input
      ∧ (∃ c, c ∈ input ∧ csv_t0 c = tmin)
      ∧ (∃ c, c ∈ input ∧ csv_t1 c = tmax)
  end.
Proof.
  destruct input as [|c input]; [done|].
  eexists _, _. split; [reflexivity|]. by apply get_time_range_spec.
Qed.

(** ** The first view *)






(** * Sampling a slice for labels *)

Lemma iloc_rows {A} `{Inhabited A} (df : list A) ps :
  Forall (λ p, 0 ≤ p < Z.of_nat (length df)) ps →
  iloc df ps = Ok ((λ p, df !!! Z.to_nat p) <$> ps).
Proof.
  unfold iloc. induction 1 as [|p ps Hp _ IH]; [done|].
  simpl. rewrite iloc1_in_range by done. simpl.
  unfold fmap in IH. rewrite IH. done.
Qed.

Lemma fmap_lookup_total_seq {A} `{Inhabited A} (df : list A) :
  (λ i, df !!! i) <$> seq 0 (length df) = df.
Proof.
  apply list_eq. intros i. rewrite list_lookup_fmap.
  destruct (decide (i < length df)%nat).
  - rewrite lookup_seq_lt by done. simpl.
    symmetry. by apply list_lookup_lookup_total_lt.
  - rewrite lookup_seq_ge by lia. by rewrite lookup_ge_None_2 by lia.
Qed.

(** The rows at distinct positions of a frame are a selection of its rows,
    none taken more often than the frame holds it. *)
Lemma rows_at_submseteq {A} `{Inhabited A} (df : list A) (ps : list Z) :
  NoDup ps → Forall (λ p, 0 ≤ p < Z.of_nat (length df)) ps →
  (λ p, df !!! Z.to_nat p) <$> ps ⊆+ df.
Proof.
  intros Hnd Hin. rewrite Forall_forall in Hin.
  trans ((λ i, df !!! i) <$> seq 0 (length df));
    [|by rewrite fmap_lookup_total_seq].
  change ((λ p, df !!! Z.to_nat p) <$> ps)
    with (((λ i, df !!! i) ∘ Z.to_nat) <$> ps).
  rewrite (list_fmap_compose Z.to_nat (λ i, df !!! i)).
  apply fmap_submseteq. apply NoDup_submseteq.
  - apply NoDup_fmap_2_strong; [|done].
    intros p q Hp%Hin Hq%Hin Hpq. lia.
  - intros i (p & -> & Hp%Hin)%list_elem_of_fmap. apply elem_of_seq. lia.
Qed.



(** X11.  Asked for fewer rows than the slice has, and not a negative
    number, [get_sampled_slice] returns exactly that many rows, and they are
    a selection of the rows of the slice: each is a row of the slice, with
    all its columns, and none is taken more often than the slice holds it. *)
Theorem sampled_slice_selection {A} `{Inhabited A} (df : list A)
    (num_samples : Z) (draw : list Z) :
  0 ≤ num_samples < size df →
  sample_of (size df) num_samples draw →
  ∃ sl, get_sampled_slice df num_samples draw = Ok sl
        ∧ size sl = num_samples
        ∧ sl ⊆+ df.
Proof.
  unfold size. intros Hn (Hlen & Hnd & Hin).
  exists ((λ p, df !!! Z.to_nat p) <$> draw).
  unfold get_sampled_slice, df_sample.
  destruct (Z.ltb_spec num_samples (Z.of_nat (length df))); [|lia].
  destruct (Z.ltb_spec num_samples 0); [lia|].
  destruct (Z.ltb_spec (Z.of_nat (length df)) num_samples); [lia|].
  split; [by apply iloc_rows|]. split; [by rewrite length_fmap|].
  by apply rows_at_submseteq.
Qed.

Lemma sampled_slice_selection_witness :
  ∃ sl, get_sampled_slice [10; 20; 30] 2 [2; 0] = Ok sl
        ∧ size sl = 2 ∧ sl ⊆+ [10; 20; 30].
Proof.
  apply (sampled_slice_selection [10; 20; 30] 2 [2; 0]).
  - unfold size. simpl. lia.
  - split; [done|]. split.
    + apply (bool_decide_unpack _). vm_compute. exact I.
    + repeat constructor; vm_compute; congruence.
Defined.

(** * Lane positions stay in their row *)



(** * Colours *)

Lemma py_index_in_range {A} `{Inhabited A} (l : list A) i :
  0 ≤ i < Z.of_nat (length l) → py_index l i = Ok (l !!! Z.to_nat i).
Proof.
  intros Hi. unfold py_index.
  destruct (Z.ltb_spec i (- Z.of_nat (length l))); [lia|].
  destruct (Z.leb_spec (Z.of_nat (length l)) i); [lia|]. simpl.
  destruct (Z.ltb_spec i 0); [lia|].
  destruct (lookup_lt_is_Some_2 l (Z.to_nat i)) as [x Hx]; [lia|].
  rewrite Hx. f_equal. symmetry. by apply list_lookup_total_correct.
Qed.

Lemma mapM_Ok_fmap {A B} (f : A → result B) (g : A → B) (l : list A) :
  Forall (λ x, f x = Ok (g x)) l → mapM f l = Ok (g <$> l).
Proof.
  induction 1 as [|x l Hx _ IH]; [done|].
  simpl. rewrite Hx. simpl. unfold fmap in IH. rewrite IH. done.
Qed.

(** X13.  For 256 kinds or more, and a palette function that returns 256
    colours when asked for 256, [big_palette] returns one colour per kind
    and never indexes the palette out of range: the colour of kind [i] is
    entry [i * 256 / size] of the palette, an entry below 256. *)
Theorem big_palette_in_range {C} `{Inhabited C} (size : Z)
    (palette_func : Z → list C) :
  256 ≤ size →
  length (palette_func 256) = 256%nat →
  ∃ colors,
    big_palette size palette_func = Ok colors
    ∧ Z.of_nat (length colors) = size
    ∧ ∀ i, 0 ≤ i < size →
        0 ≤ i * 256 / size < 256
        ∧ is_Some (colors !! Z.to_nat i)
        ∧ colors !! Z.to_nat i = palette_func 256 !! Z.to_nat (i * 256 / size).
Proof.
  intros Hsize Hlen.
  assert (∀ i, 0 ≤ i < size → 0 ≤ i * 256 / size < 256) as Hidx.
  { intros i Hi. split.
    - apply Z.div_pos; lia.
    - apply Z.div_lt_upper_bound; lia. }
  exists ((λ i, palette_func 256 !!! Z.to_nat (i * 256 / size)) <$> seqZ 0 size).
  split; [|split].
  - unfold big_palette. destruct (Z.ltb_spec size 256); [lia|].
    apply mapM_Ok_fmap. apply Forall_seqZ. intros i Hi.
    apply py_index_in_range. rewrite Hlen. specialize (Hidx i ltac:(lia)). lia.
  - rewrite length_fmap, length_seqZ. lia.
  - intros i Hi. specialize (Hidx i Hi). split; [done|].
    rewrite list_lookup_fmap.
    rewrite (lookup_seqZ_lt 0 size (Z.to_nat i)) by lia.
    rewrite Z.add_0_l, Z2Nat.id by lia. cbn [fmap option_fmap option_map].
    split; [by eexists|].
    symmetry. apply list_lookup_lookup_total_lt. rewrite Hlen. lia.
Qed.

Lemma big_palette_in_range_witness :
  ∃ colors,
    big_palette 512 (λ n, seqZ 0 n) = Ok colors
    ∧ Z.of_nat (length colors) = 512
    ∧ colors !! 511%nat = Some 255.
Proof.
  destruct (big_palette_in_range 512 (λ n, seqZ 0 n)) as (colors & Hok & Hlen & Hi).
  - lia.
  - rewrite length_seqZ. lia.
  - exists colors. split; [exact Hok|]. split; [exact Hlen|].
    destruct (Hi 511 ltac:(lia)) as (_ & _ & Hc).
    change (Z.to_nat 511) with 511%nat in Hc. rewrite Hc.
    vm_compute. reflexivity.
Defined.

(** * The viewer *)

Global Instance lane_row_inhabited : Inhabited lane_row :=
  populate (LaneRow inhabitant 0%Q 0%Q 0%Q).

Lemma no_visible_kind_empty input time_range num_samples draw :
  input ≠ [] → 0 ≤ num_samples →
  get_sampled_time_slice (read_csv input) time_range ∅ num_samples draw
  = Ok ([], 0).
Proof.
  intros Hne Hn. pose proof (read_csv_indexed input) as Hidx.
  rewrite get_sampled_time_slice_eq by done.
  rewrite num_total_no_kinds by done.
  rewrite sampled_idxs_within by done.
  change (seqZ 0 0) with (@nil Z). bind_ok.
  destruct (data (read_csv input)) as [|kd d] eqn:Hd.
  { by apply data_nil_kinds, get_kinds_nil in Hd. }
  by rewrite frames_from_no_sample.
Qed.


Section viewer_properties.
Context {rate : Type} (label_count : Z → rate → Z).
Implicit Types (v : viewer rate) (dr : draws).

Lemma same_settings_trans v1 v2 v3 :
  same_settings v1 v2 → same_settings v2 v3 → same_settings v1 v3.
Proof.
  unfold same_settings.
  intros (? & ? & ? & ? & ? & ? & ?) (? & ? & ? & ? & ? & ? & ?).
  repeat split; congruence.
Qed.

Lemma same_settings_set_refreshed v v' f :
  same_settings v v' → same_settings v (set_refreshed f v').
Proof. done. Qed.

Lemma only_main_differs_refl v : only_main_differs v v.
Proof. by unfold only_main_differs, same_settings. Qed.

Lemma only_main_differs_trans v1 v2 v3 :
  only_main_differs v1 v2 → only_main_differs v2 v3 → only_main_differs v1 v3.
Proof.
  unfold only_main_differs, same_settings.
  intros ((? & ? & ? & ? & ? & ? & ?) & ? & ?) ((? & ? & ? & ? & ? & ? & ?) & ? & ?).
  repeat split; congruence.
Qed.

Lemma only_main_differs_display v d :
  rt_bar_src d = rt_bar_src (v_display v) →
  only_main_differs v (set_display d v).
Proof. intros Hd. by unfold only_main_differs, same_settings. Qed.

Lemma get_main_data_frame v tab dr :
  only_main_differs v (get_main_data label_count v tab dr).1.
Proof.
  unfold get_main_data, only_main_differs, same_settings.
  destruct (if tab =? _ then _ else _) as [[bar n]|e]; [|done].
  destruct (get_sampled_slice _ _ _); by destruct (tab =? _).
Qed.

Lemma update_main_data_frame v dr :
  only_main_differs v (update_main_data label_count v dr).1.
Proof.
  unfold update_main_data.
  pose proof (get_main_data_frame v 0 dr) as H0.
  destruct (get_main_data label_count v 0 dr) as [v0 [d0|e0]]; simpl in H0;
    [|done].
  set (v0' := set_display _ v0).
  assert (only_main_differs v v0') as H0'.
  { eapply only_main_differs_trans; [exact H0|].
    by apply only_main_differs_display. }
  pose proof (get_main_data_frame v0' 1 dr) as H1.
  destruct (get_main_data label_count v0' 1 dr) as [v1 [d1|e1]]; simpl in H1.
  2:{ simpl. by eapply only_main_differs_trans. }
  set (v1' := set_display _ v1).
  assert (only_main_differs v v1') as H1'.
  { eapply only_main_differs_trans; [exact H0'|].
    eapply only_main_differs_trans; [exact H1|].
    by apply only_main_differs_display. }
  destruct (get_sample_info v1') as [info|e]; simpl; [|done].
  eapply only_main_differs_trans; [exact H1'|].
  by apply only_main_differs_display.
Qed.

Lemma update_rangetool_data_frame v dr :
  same_settings v (update_rangetool_data v dr).1
  ∧ v_refreshed (update_rangetool_data v dr).1 = v_refreshed v.
Proof.
  unfold update_rangetool_data, same_settings.
  by destruct (get_rangetool_data _ _ _).
Qed.

Lemma update_rangetool_data_fail v dr v' e :
  update_rangetool_data v dr = (v', Some e) → v' = v.
Proof.
  unfold update_rangetool_data.
  destruct (get_rangetool_data _ _ _); by intros [= <- _].
Qed.

(** X14.  A timer tick changes no setting of the viewer.  On a viewer with
    both flags up it does nothing.  A tick that returns leaves both flags
    up.  A tick that raises leaves the flag of the failing plot down, so
    that the next tick tries again, and leaves the range-tool plot as it
    was; when the main plot fails, the range-tool plot is not tried. *)
Theorem on_timer_flags v dr :
  let v' := (on_timer label_count v dr).1 in
  same_settings v v'
  ∧ (v_refreshed v = Refreshed true true →
     on_timer label_count v dr = (v, None))
  ∧ match (on_timer label_count v dr).2 with
    | None => v_refreshed v' = Refreshed true true
    | Some _ =>
        rt_bar_src (v_display v') = rt_bar_src (v_display v)
        ∧ ((refreshed_main (v_refreshed v') = false
            ∧ refreshed_sub (v_refreshed v') = refreshed_sub (v_refreshed v))
           ∨ (refreshed_main (v_refreshed v') = true
              ∧ refreshed_sub (v_refreshed v') = false))
    end.
Proof.
  intros v'. subst v'. split; [|split].
  - unfold on_timer.
    pose proof (update_main_data_frame v dr) as (Hm & _ & _).
    destruct (refreshed_main (v_refreshed v)).
    + pose proof (update_rangetool_data_frame v dr) as (Hr & _).
      destruct (refreshed_sub (v_refreshed v)); [by unfold same_settings|].
      by destruct (update_rangetool_data v dr) as [v2 [e|]].
    + destruct (update_main_data label_count v dr) as [v1 [e|]]; [done|].
      simpl in Hm. set (v1' := set_refreshed _ v1).
      pose proof (update_rangetool_data_frame v1' dr) as (Hr & _).
      assert (same_settings v v1') as Hv1' by done.
      destruct (refreshed_sub (v_refreshed v1')); [done|].
      destruct (update_rangetool_data v1' dr) as [v2 [e|]]; simpl in Hr |- *.
      * by eapply same_settings_trans.
      * apply same_settings_set_refreshed. by eapply same_settings_trans.
  - unfold on_timer. intros Hfl. rewrite Hfl. simpl. by rewrite Hfl.
  - unfold on_timer.
    pose proof (update_main_data_frame v dr) as (_ & Hmf & Hmrt).
    destruct (v_refreshed v) as [[] sub] eqn:Hfl; simpl.
    + pose proof (update_rangetool_data_frame v dr) as (_ & Hrf).
      rewrite Hfl. simpl. destruct sub; [simpl; by rewrite Hfl|].
      destruct (update_rangetool_data v dr) as [v2 [e|]] eqn:Hup; simpl in *.
      * apply update_rangetool_data_fail in Hup as ->.
        split; [done|]. right. by rewrite Hfl.
      * rewrite Hrf; simpl; rewrite ?Hfl; done.
    + destruct (update_main_data label_count v dr) as [v1 [e|]]; simpl in *.
      { split; [done|]. left. by rewrite Hmf. }
      rewrite Hmf. simpl.
      destruct sub; [done|].
      set (v1' := set_refreshed _ v1).
      pose proof (update_rangetool_data_frame v1' dr) as (_ & Hrf).
      destruct (update_rangetool_data v1' dr) as [v2 [e|]] eqn:Hup; simpl in *.
      * apply update_rangetool_data_fail in Hup as ->.
        split; [done|]. by right.
      * rewrite Hrf; simpl; rewrite ?Hfl; done.
Qed.
End viewer_properties.

Section viewer_queries.
Context {rate : Type} (label_count : Z → rate → Z).
Implicit Types (v : viewer rate) (dr : draws).

Lemma viewer_query_hidden v input time_range num_samples draw :
  v_trace v = read_csv input → input ≠ [] →
  v_visible_kinds v = ∅ →
  0 ≤ num_samples →
  num_conc (v_slider_values v) ≠ 0 →
  viewer_get_sampled_time_slice v time_range num_samples draw = Ok ([], 0).
Proof.
  intros Htr Hne Hvis Hn Hnc. unfold viewer_get_sampled_time_slice.
  rewrite Htr, Hvis, no_visible_kind_empty by done. bind_ok. simpl.
  unfold add_rank_pos. by destruct (Z.eqb_spec (num_conc (v_slider_values v)) 0).
Qed.

Lemma get_empty_data_Ok v :
  num_conc (v_slider_values v) ≠ 0 → get_empty_data v = Ok ([], 0).
Proof.
  intros Hnc. unfold get_empty_data, add_rank_pos.
  by destruct (Z.eqb_spec (num_conc (v_slider_values v)) 0).
Qed.

Lemma get_main_data_hidden v input tab dr :
  v_trace v = read_csv input → input ≠ [] →
  v_visible_kinds v = ∅ →
  0 ≤ num_main_bar_samples (v_slider_values v) →
  num_conc (v_slider_values v) ≠ 0 →
  0 ≤ label_count 0 (label_rate (v_slider_values v)) →
  get_main_data label_count v tab dr
  = (if tab =? v_active_main_tab v
     then set_num_main_actual_events 0 v else v,
     Ok (TabData [] [])).
Proof.
  intros Htr Hne Hvis Hn Hnc Hlabel. unfold get_main_data.
  rewrite (viewer_query_hidden v input) by done.
  rewrite get_empty_data_Ok by done.
  assert (get_sampled_slice (@nil lane_row)
            (label_count 0 (label_rate (v_slider_values v))) (dr_label dr)
          = Ok []) as Hlab.
  { unfold get_sampled_slice. change (Z.of_nat (length (@nil lane_row))) with 0.
    destruct (Z.ltb_spec (label_count 0 (label_rate (v_slider_values v))) 0);
      [lia|done]. }
  destruct (tab =? v_active_main_tab v); cbv beta iota zeta; unfold size;
    change (Z.of_nat (length (@nil lane_row))) with 0;
    change (v_slider_values (set_num_main_actual_events 0 v))
      with (v_slider_values v);
    by rewrite Hlab.
Qed.

Lemma update_main_data_hidden v input dr :
  v_trace v = read_csv input → input ≠ [] →
  v_visible_kinds v = ∅ →
  v_active_main_tab v = 0 ∨ v_active_main_tab v = 1 →
  0 ≤ num_main_bar_samples (v_slider_values v) →
  num_conc (v_slider_values v) ≠ 0 →
  0 ≤ label_count 0 (label_rate (v_slider_values v)) →
  ∃ v', update_main_data label_count v dr = (v', None)
        ∧ only_main_differs v v'
        ∧ tab0 (v_display v') = TabData [] []
        ∧ tab1 (v_display v') = TabData [] []
        ∧ sample_info_div (v_display v') = SampleInfo 0 Accurate.
Proof.
  intros Htr Hne Hvis Hact Hmain Hnc Hlabel.
  pose proof (update_main_data_frame label_count v dr) as Hframe.
  assert (∃ v', update_main_data label_count v dr = (v', None)
                ∧ tab0 (v_display v') = TabData [] []
                ∧ tab1 (v_display v') = TabData [] []
                ∧ sample_info_div (v_display v') = SampleInfo 0 Accurate)
    as (v' & Hup & Hd).
  { unfold update_main_data.
    rewrite (get_main_data_hidden v input) by done.
    destruct Hact as [Ha|Ha]; rewrite Ha; cbn [Z.eqb Pos.eqb].
    - rewrite (get_main_data_hidden _ input) by done. cbn. rewrite Ha. cbn.
      unfold get_sample_info. cbn.
      destruct (Z.ltb_spec (num_main_bar_samples (v_slider_values v)) 0);
        [lia|]. eauto.
    - rewrite (get_main_data_hidden _ input) by done. cbn. rewrite Ha. cbn.
      unfold get_sample_info. cbn.
      destruct (Z.ltb_spec (num_main_bar_samples (v_slider_values v)) 0);
        [lia|]. eauto. }
  exists v'. rewrite Hup in Hframe. done.
Qed.

Lemma update_rangetool_data_hidden v input dr :
  v_trace v = read_csv input → input ≠ [] →
  v_visible_kinds v = ∅ →
  0 ≤ num_rt_bar_samples (v_slider_values v) →
  num_conc (v_slider_values v) ≠ 0 →
  update_rangetool_data v dr
  = (set_display (Display (tab0 (v_display v)) (tab1 (v_display v)) []
                    (sample_info_div (v_display v))) v, None).
Proof.
  intros Htr Hne Hvis Hrt Hnc. unfold update_rangetool_data, get_rangetool_data.
  by rewrite (viewer_query_hidden v input) by done.
Qed.

(** X15.  Unchecking every kind on a viewer of a non-empty trace, with
    budgets that are not negative, a lane count other than 0 and a label
    count for an empty slice that is not negative, lowers both flags; the
    next timer tick then returns, empties both main tabs and the range-tool
    plot, reports 0 actual events as accurate, and raises both flags. *)
Theorem hide_all_kinds v input dr :
  v_trace v = read_csv input → input ≠ [] →
  v_active_main_tab v = 0 ∨ v_active_main_tab v = 1 →
  0 ≤ num_main_bar_samples (v_slider_values v) →
  0 ≤ num_rt_bar_samples (v_slider_values v) →
  num_conc (v_slider_values v) ≠ 0 →
  0 ≤ label_count 0 (label_rate (v_slider_values v)) →
  ∃ v1 v2,
    on_click_kind_checkboxes v [] = (v1, None)
    ∧ v_refreshed v1 = Refreshed false false
    ∧ on_timer label_count v1 dr = (v2, None)
    ∧ v_display v2
      = Display (TabData [] []) (TabData [] []) [] (SampleInfo 0 Accurate)
    ∧ v_refreshed v2 = Refreshed true true.
Proof.
  intros Htr Hne Hact Hmain Hrt Hnc Hlabel.
  set (v1 := request_refresh_all (set_visible_kinds ∅ v)).
  destruct (update_main_data_hidden v1 input dr)
    as (v' & Hup & (Hset & Hfl & _) & Ht0 & Ht1 & Hinfo); [done..|].
  destruct Hset as (Htr' & _ & Hvis' & Hsv' & _).
  set (v'' := set_refreshed (Refreshed true false) v').
  pose proof (update_rangetool_data_hidden v'' input dr) as Hrtd.
  exists v1. eexists. split; [reflexivity|]. split; [reflexivity|].
  unfold on_timer. change (refreshed_main (v_refreshed v1)) with false.
  cbv iota. rewrite Hup. rewrite Hfl.
  change (refreshed_sub (v_refreshed v1)) with false. fold v''.
  change (refreshed_sub (v_refreshed v'')) with false. cbv iota.
  rewrite Hrtd.
  - split; [reflexivity|]. simpl. by rewrite Ht0, Ht1, Hinfo.
  - subst v''. simpl. by rewrite Htr'.
  - done.
  - subst v''. simpl. by rewrite Hvis'.
  - subst v''. simpl. by rewrite Hsv'.
  - subst v''. simpl. by rewrite Hsv'.
Qed.
End viewer_queries.

Lemma mapM_result_Ok {A B} (f : A → result B) (l : list A) (k : list B) :
  mapM f l = Ok k → Forall2 (λ x y, f x = Ok y) l k.
Proof.
  revert k. induction l as [|x l IH]; intros k; simpl.
  - intros [= <-]. constructor.
  - destruct (f x) as [y|e] eqn:Hx; simpl; [|done].
    destruct (mapM f l) as [ys|e] eqn:Hl; simpl; [|done].
    intros [= <-]. constructor; [done|]. by apply IH.
Qed.

Lemma mapM_result_Raise {A B} (f : A → result B) (l : list A) e :
  mapM f l = Raise e → ∃ x, x ∈ l ∧ f x = Raise e.
Proof.
  induction l as [|x l IH]; simpl; [done|].
  destruct (f x) as [y|e'] eqn:Hx; simpl.
  - destruct (mapM f l) as [ys|e''] eqn:Hl; simpl; [done|].
    intros [= ->]. destruct IH as (x' & Hx' & Hf); [done|].
    exists x'. split; [by right|done].
  - intros [= ->]. exists x. split; [left|done].
Qed.

Lemma py_index_Ok {A} (l : list A) i x :
  py_index l i = Ok x →
  - Z.of_nat (length l) ≤ i < Z.of_nat (length l) ∧ x ∈ l.
Proof.
  unfold py_index.
  destruct (Z.ltb_spec i (- Z.of_nat (length l))); [done|].
  destruct (Z.leb_spec (Z.of_nat (length l)) i); [done|]. simpl.
  destruct (l !! _) as [y|] eqn:Hy; [|done]. intros [= <-].
  split; [lia|]. by eapply list_elem_of_lookup_2.
Qed.

Lemma py_index_Raise {A} (l : list A) i e :
  py_index l i = Raise e →
  e = IndexError list_index_msg
  ∧ (i < - Z.of_nat (length l) ∨ Z.of_nat (length l) ≤ i).
Proof.
  unfold py_index.
  destruct (Z.ltb_spec i (- Z.of_nat (length l))).
  { intros [= <-]. split; [done|lia]. }
  destruct (Z.leb_spec (Z.of_nat (length l)) i); simpl.
  { intros [= <-]. split; [done|lia]. }
  destruct (l !! _) as [y|] eqn:Hy; [done|].
  apply lookup_ge_None in Hy. destruct (Z.ltb_spec i 0); lia.
Qed.

Section viewer_events.
Context {rate : Type} (label_count : Z → rate → Z).
Implicit Types (v : viewer rate) (dr : draws).

(** X16.  The labels of a tab sit on its bars: whenever [get_main_data]
    returns, the label frame is a selection of the rows of the bar frame,
    lane positions included, no bar labelled twice, and it has
    [min(num_label_samples, size)] rows. *)
Theorem labels_on_bars v tab dr v' d :
  get_main_data label_count v tab dr = (v', Ok d) →
  let n := label_count (size (bar_src d)) (label_rate (v_slider_values v)) in
  (0 ≤ n < size (bar_src d) → sample_of (size (bar_src d)) n (dr_label dr)) →
  label_src d ⊆+ bar_src d
  ∧ size (label_src d) = Z.min n (size (bar_src d)).
Proof.
  unfold get_main_data.
  destruct (if tab =? _ then _ else _) as [[bar nt]|e]; [|done].
  assert (label_rate (v_slider_values
            (if tab =? v_active_main_tab v
             then set_num_main_actual_events nt v else v))
          = label_rate (v_slider_values v)) as -> by by destruct (tab =? _).
  destruct (get_sampled_slice bar _ _) as [label|e] eqn:Hlab; [|done].
  intros [= _ <-]. simpl. intros Hdraw.
  unfold get_sampled_slice, df_sample, size in *.
  set (n := label_count (Z.of_nat (length bar)) (label_rate (v_slider_values v)))
    in *.
  destruct (Z.ltb_spec n (Z.of_nat (length bar))).
  - destruct (Z.ltb_spec n 0); [done|].
    destruct (Z.ltb_spec (Z.of_nat (length bar)) n); [lia|].
    destruct (Hdraw ltac:(lia)) as (Hlen & Hnd & Hin).
    rewrite iloc_rows in Hlab by done. injection Hlab as <-.
    split; [by apply rows_at_submseteq|]. rewrite length_fmap. lia.
  - injection Hlab as <-. split; [done|lia].
Qed.

(** X17.  Clicking the kind check boxes with positions that all index the
    list of kinds makes exactly the kinds at these positions visible, all of
    them kinds of the trace, and lowers both flags; a position out of range
    raises [IndexError] and leaves the viewer as it was. *)
Theorem kind_checkboxes v (active_list : list Z) :
  let len := Z.of_nat (length (v_kinds v)) in
  match on_click_kind_checkboxes v active_list with
  | (v', None) =>
      Forall (λ i, - len ≤ i < len) active_list
      ∧ (∀ k, k ∈ v_visible_kinds v'
              ↔ ∃ i, i ∈ active_list ∧ py_index (v_kinds v) i = Ok k)
      ∧ (∀ k, k ∈ v_visible_kinds v' → k ∈ v_kinds v)
      ∧ v_refreshed v' = Refreshed false false
  | (v', Some e) =>
      v' = v
      ∧ e = IndexError list_index_msg
      ∧ Exists (λ i, i < - len ∨ len ≤ i) active_list
  end.
Proof.
  intros len. unfold on_click_kind_checkboxes.
  destruct (mapM (py_index (v_kinds v)) active_list) as [ks|e] eqn:Hm.
  - apply mapM_result_Ok in Hm. simpl.
    assert (∀ k, k ∈ ks ↔ ∃ i, i ∈ active_list ∧ py_index (v_kinds v) i = Ok k)
      as Hks.
    { intros k. split.
      - intros (j & Hj)%list_elem_of_lookup_1.
        destruct (Forall2_lookup_r _ _ _ _ _ Hm Hj) as (i & Hi & Hik).
        exists i. split; [by eapply list_elem_of_lookup_2|done].
      - intros (i & (j & Hj)%list_elem_of_lookup_1 & Hik).
        destruct (Forall2_lookup_l _ _ _ _ _ Hm Hj) as (k' & Hk' & Hik').
        rewrite Hik in Hik'. injection Hik' as <-.
        by eapply list_elem_of_lookup_2. }
    split; [|split; [|split]]; [| | |done].
    + apply Forall_forall. intros i (j & Hj)%list_elem_of_lookup_1.
      destruct (Forall2_lookup_l _ _ _ _ _ Hm Hj) as (k & _ & Hik).
      by apply py_index_Ok in Hik as [? _].
    + intros k. rewrite elem_of_list_to_set. apply Hks.
    + intros k. rewrite elem_of_list_to_set, Hks.
      intros (i & _ & Hik). by apply py_index_Ok in Hik as [_ ?].
  - apply mapM_result_Raise in Hm as (i & Hi & Hik).
    apply py_index_Raise in Hik as [-> Hout].
    split; [done|]. split; [done|]. apply Exists_exists. eauto.
Qed.

End viewer_events.

(** ** The viewer at start *)



Section viewer_start.
Context {rate : Type} (label_count : Z → rate → Z).
Implicit Types (v : viewer rate) (dr : draws).



End viewer_start.

(** ** Instances on a small viewer *)

Lemma on_timer_flags_witness :
  on_timer ex_label_count ex_viewer (Draws [] [] []) = (ex_viewer, None).
Proof.
  apply (proj1 (proj2 (on_timer_flags ex_label_count ex_viewer (Draws [] [] [])))).
  reflexivity.
Defined.

Lemma hide_all_kinds_witness :
  ∃ v1 v2,
    on_click_kind_checkboxes ex_viewer [] = (v1, None)
    ∧ v_refreshed v1 = Refreshed false false
    ∧ on_timer ex_label_count v1 (Draws [] [] []) = (v2, None)
    ∧ v_display v2
      = Display (TabData [] []) (TabData [] []) [] (SampleInfo 0 Accurate)
    ∧ v_refreshed v2 = Refreshed true true.
Proof.
  apply (hide_all_kinds ex_label_count ex_viewer ex_chain (Draws [] [] [])).
  - reflexivity.
  - discriminate.
  - left. reflexivity.
  - simpl. lia.
  - simpl. lia.
  - simpl. lia.
  - vm_compute. discriminate.
Defined.

Lemma labels_on_bars_witness :
  let res := get_main_data ex_label_count ex_viewer 0 (Draws [] [2; 0] []) in
  let d := match res.2 with Ok d => d | Raise _ => TabData [] [] end in
  label_src d ⊆+ bar_src d ∧ size (label_src d) = 2.
Proof.
  intros res d.
  assert (get_main_data ex_label_count ex_viewer 0 (Draws [] [2; 0] [])
          = (res.1, Ok d)) as Heq by (vm_compute; reflexivity).
  destruct (labels_on_bars ex_label_count _ _ _ _ _ Heq) as [Hsub Hsize].
  - intros _. split; [vm_compute; reflexivity|]. split.
    + apply (bool_decide_unpack _). vm_compute. exact I.
    + repeat constructor; vm_compute; congruence.
  - split; [exact Hsub|]. rewrite Hsize. vm_compute. reflexivity.
Defined.


